(** * vllm/platforms/cpu.py: the CPU platform of vLLM

    A shallow embedding of [CpuPlatform] (capability tables, attention-backend
    selection, configuration resolution with its environment wiring, and the
    CPU/NUMA topology query) together with the properties stated about it.

    Python integers are [Z], strings are [string], [os.environ] and the
    inductor option dictionary are [gmap]s, sets of integers are [gset Z].
    Code that mutates the configuration object, writes [os.environ], logs or
    raises runs in a state-and-exception monad over the process state; the
    state reached when an exception is raised is kept, as in Python. *)

From Stdlib Require Import ZArith String List Sorting.Sorted.
From stdpp Require Import base tactics option list sorting gmap strings pretty.

Local Open Scope string_scope.
Local Open Scope list_scope.
Local Open Scope Z_scope.

(** ** Values from outside the file *)

(** [torch.dtype]: the members the platform code names, and the others. *)
Inductive torch_dtype :=
  | float16
  | bfloat16
  | float32
  | other_dtype (name : string).

(** [torch.half] is an alias of [torch.float16]. *)
Definition half : torch_dtype := float16.

Global Instance torch_dtype_eq_dec : EqDecision torch_dtype.
Proof. solve_decision. Defined.

(** [CpuArchEnum] of [vllm.platforms.interface]: the members named in this
    file, and the remaining ones. *)
Inductive CpuArchEnum :=
  | X86
  | ARM
  | POWERPC
  | OTHER_ARCH (name : string).

Global Instance CpuArchEnum_eq_dec : EqDecision CpuArchEnum.
Proof. solve_decision. Defined.

(** [_Backend] of [vllm.platforms.interface]: [TORCH_SDPA] and the other
    members, kept by name. *)
Inductive _Backend :=
  | TORCH_SDPA
  | OTHER_BACKEND (name : string).

Global Instance _Backend_eq_dec : EqDecision _Backend.
Proof. solve_decision. Defined.

Definition _Backend_str (b : _Backend) : string :=
  match b with
  | TORCH_SDPA => "_Backend.TORCH_SDPA"
  | OTHER_BACKEND name => "_Backend." +:+ name
  end.

(** [CompilationLevel] of [vllm.config]. *)
Inductive CompilationLevel :=
  | NO_COMPILATION
  | DYNAMO_AS_IS
  | DYNAMO_ONCE
  | PIECEWISE.

Global Instance CompilationLevel_eq_dec : EqDecision CompilationLevel.
Proof. solve_decision. Defined.

(** Values stored in [inductor_compile_config]. *)
Inductive PyValue :=
  | PyBool (b : bool)
  | PyInt (n : Z)
  | PyStr (s : string).

(** ** Exceptions, log records and results *)

Inductive PyExc :=
  | RuntimeError (msg : string)
  | ValueError (msg : string)
  | NotImplementedError (msg : string)
  | AssertionError
  | AttributeError (attr : string).

Global Instance PyExc_eq_dec : EqDecision PyExc.
Proof. solve_decision. Defined.

Inductive Result (A : Type) :=
  | Ok (a : A)
  | Raise (e : PyExc).
Arguments Ok {A} a.
Arguments Raise {A} e.

Inductive LogLevel := INFO | WARNING.

Record LogRecord := { log_level : LogLevel; log_message : string }.

(** ** LogicalCPUInfo (lines 37-63) *)

(** A value of a decoded [lscpu] object, as far as the code looks at it:
    [None] (JSON [null]); a value that the builtin [int] turns into the
    integer [n] (the number [n], a string such as ["12"] or ["-2"]); or any
    other value, on which [int] raises (["-"], ["n/a"], a list). *)
Inductive JsonValue :=
  | JNull
  | JInt (n : Z)
  | JOther.

Global Instance JsonValue_eq_dec : EqDecision JsonValue.
Proof. solve_decision. Defined.

Module LogicalCPUInfo.

Record t := { id : Z; physical_core : Z; numa_node : Z }.

Global Instance t_eq_dec : EqDecision t.
Proof. solve_decision. Defined.

(** The dataclass defaults: every field is the sentinel [-1]. *)
Definition default : t := {| id := -1; physical_core := -1; numa_node := -1 |}.

(** Python's builtin [int]: [None] when it raises. *)
Definition py_int (value : JsonValue) : option Z :=
  match value with
  | JInt n => Some n
  | JNull | JOther => None
  end.

(** lines 42-49: [try: int(value)], any exception giving [-1] *)
Definition _int (value : JsonValue) : Z :=
  match py_int value with
  | Some int_value => int_value
  | None => -1
  end.

(** [obj_dict.get(key)]: [None] for a key the dictionary does not have *)
Definition get (obj_dict : gmap string JsonValue) (key : string) : JsonValue :=
  match obj_dict !! key with
  | Some value => value
  | None => JNull
  end.

(** [value is None] *)
Definition is_None (value : JsonValue) : bool :=
  match value with
  | JNull => true
  | JInt _ | JOther => false
  end.

(** lines 51-63: a dictionary none of whose three fields is [None] becomes a
    record, any other dictionary is returned as it is. *)
Definition json_decoder (obj_dict : gmap string JsonValue)
    : t + gmap string JsonValue :=
  let id := get obj_dict "cpu" in
  let physical_core := get obj_dict "core" in
  let numa_node := get obj_dict "node" in
  if negb (is_None id || is_None physical_core || is_None numa_node) then
    inl {| id := _int id;
           physical_core := _int physical_core;
           numa_node := _int numa_node |}
  else inr obj_dict.

End LogicalCPUInfo.

(** ** The host: what the platform code reads from its surroundings *)

Record Host := {
  (** [Platform.get_cpu_architecture()] *)
  cpu_architecture : CpuArchEnum;
  (** [sys.platform] *)
  sys_platform : string;
  (** [platform.system()] *)
  platform_system : string;
  (** [os.sched_getaffinity(0)]; [None] when [os] has no such attribute *)
  sched_getaffinity : option (gset Z);
  (** [os.cpu_count()] *)
  os_cpu_count : option Z;
  (** [torch.get_num_threads()] *)
  torch_num_threads : Z;
  (** [find_spec("intel_extension_for_pytorch") is not None] *)
  ipex_installed : bool;
  (** [envs.VLLM_CPU_KVCACHE_SPACE] *)
  VLLM_CPU_KVCACHE_SPACE : option Z;
  (** [vllm.utils.GiB_bytes] *)
  GiB_bytes : Z;
  (** [vllm.utils.DEFAULT_MAX_NUM_BATCHED_TOKENS] *)
  DEFAULT_MAX_NUM_BATCHED_TOKENS : Z;
  (** the objects of the ['cpus'] array that [lscpu -J -e=CPU,CORE,NODE]
      prints, as [json.loads] reads them before it hands each one to its
      [object_hook] *)
  lscpu_cpus : list (gmap string JsonValue)
}.

(** ** The configuration aggregate (the fields the platform reads or writes) *)

Record ModelConfig := {
  disable_cascade_attn : bool;
  dtype : torch_dtype;
  use_mla : bool
}.

Record CacheConfig := {
  block_size : option Z;
  enable_prefix_caching : bool;
  cache_dtype : string;
  cpu_kvcache_space_bytes : option Z
}.

Record SchedulerConfig := {
  enable_chunked_prefill : bool;
  chunked_prefill_enabled : bool;
  max_num_batched_tokens : Z;
  max_model_len : Z
}.

Record ParallelConfig := {
  world_size : Z;
  tensor_parallel_size : Z;
  distributed_executor_backend : option string;
  worker_cls : string
}.

Record CompilationConfig := {
  level : CompilationLevel;
  backend : string;
  use_inductor : bool;
  custom_ops : list string;
  cudagraph_capture_sizes : option (list Z);
  inductor_compile_config : gmap string PyValue
}.

Inductive LoRAConfig := MkLoRAConfig.

Record DeviceConfig := { device_type : string }.

Record VllmConfig := {
  model_config : option ModelConfig;
  cache_config : option CacheConfig;
  scheduler_config : SchedulerConfig;
  parallel_config : ParallelConfig;
  compilation_config : CompilationConfig;
  lora_config : option LoRAConfig;
  device_config : DeviceConfig
}.

(** *** Attribute assignment *)

Definition set_disable_cascade_attn (v : bool) (m : ModelConfig) : ModelConfig :=
  {| disable_cascade_attn := v; dtype := dtype m; use_mla := use_mla m |}.
Definition set_dtype (v : torch_dtype) (m : ModelConfig) : ModelConfig :=
  {| disable_cascade_attn := disable_cascade_attn m; dtype := v; use_mla := use_mla m |}.

Definition set_block_size (v : option Z) (c : CacheConfig) : CacheConfig :=
  {| block_size := v; enable_prefix_caching := enable_prefix_caching c;
     cache_dtype := cache_dtype c;
     cpu_kvcache_space_bytes := cpu_kvcache_space_bytes c |}.
Definition set_cache_dtype (v : string) (c : CacheConfig) : CacheConfig :=
  {| block_size := block_size c; enable_prefix_caching := enable_prefix_caching c;
     cache_dtype := v;
     cpu_kvcache_space_bytes := cpu_kvcache_space_bytes c |}.
Definition set_cpu_kvcache_space_bytes (v : option Z) (c : CacheConfig) : CacheConfig :=
  {| block_size := block_size c; enable_prefix_caching := enable_prefix_caching c;
     cache_dtype := cache_dtype c;
     cpu_kvcache_space_bytes := v |}.

Definition set_enable_chunked_prefill (v : bool) (s : SchedulerConfig) : SchedulerConfig :=
  {| enable_chunked_prefill := v;
     chunked_prefill_enabled := chunked_prefill_enabled s;
     max_num_batched_tokens := max_num_batched_tokens s;
     max_model_len := max_model_len s |}.
Definition set_chunked_prefill_enabled (v : bool) (s : SchedulerConfig) : SchedulerConfig :=
  {| enable_chunked_prefill := enable_chunked_prefill s;
     chunked_prefill_enabled := v;
     max_num_batched_tokens := max_num_batched_tokens s;
     max_model_len := max_model_len s |}.
Definition set_max_num_batched_tokens (v : Z) (s : SchedulerConfig) : SchedulerConfig :=
  {| enable_chunked_prefill := enable_chunked_prefill s;
     chunked_prefill_enabled := chunked_prefill_enabled s;
     max_num_batched_tokens := v;
     max_model_len := max_model_len s |}.

Definition set_distributed_executor_backend (v : option string) (p : ParallelConfig)
    : ParallelConfig :=
  {| world_size := world_size p; tensor_parallel_size := tensor_parallel_size p;
     distributed_executor_backend := v; worker_cls := worker_cls p |}.
Definition set_worker_cls (v : string) (p : ParallelConfig) : ParallelConfig :=
  {| world_size := world_size p; tensor_parallel_size := tensor_parallel_size p;
     distributed_executor_backend := distributed_executor_backend p;
     worker_cls := v |}.

Definition set_level (v : CompilationLevel) (c : CompilationConfig) : CompilationConfig :=
  {| level := v; backend := backend c; use_inductor := use_inductor c;
     custom_ops := custom_ops c;
     cudagraph_capture_sizes := cudagraph_capture_sizes c;
     inductor_compile_config := inductor_compile_config c |}.
Definition set_backend (v : string) (c : CompilationConfig) : CompilationConfig :=
  {| level := level c; backend := v; use_inductor := use_inductor c;
     custom_ops := custom_ops c;
     cudagraph_capture_sizes := cudagraph_capture_sizes c;
     inductor_compile_config := inductor_compile_config c |}.
Definition set_custom_ops (v : list string) (c : CompilationConfig) : CompilationConfig :=
  {| level := level c; backend := backend c; use_inductor := use_inductor c;
     custom_ops := v;
     cudagraph_capture_sizes := cudagraph_capture_sizes c;
     inductor_compile_config := inductor_compile_config c |}.
Definition set_cudagraph_capture_sizes (v : option (list Z)) (c : CompilationConfig)
    : CompilationConfig :=
  {| level := level c; backend := backend c; use_inductor := use_inductor c;
     custom_ops := custom_ops c;
     cudagraph_capture_sizes := v;
     inductor_compile_config := inductor_compile_config c |}.
Definition set_inductor_compile_config (v : gmap string PyValue) (c : CompilationConfig)
    : CompilationConfig :=
  {| level := level c; backend := backend c; use_inductor := use_inductor c;
     custom_ops := custom_ops c;
     cudagraph_capture_sizes := cudagraph_capture_sizes c;
     inductor_compile_config := v |}.

(** Assignment through the sub-configuration objects of [vllm_config]. *)
Definition on_model_config (f : ModelConfig → ModelConfig) (c : VllmConfig) : VllmConfig :=
  {| model_config := f <$> model_config c; cache_config := cache_config c;
     scheduler_config := scheduler_config c; parallel_config := parallel_config c;
     compilation_config := compilation_config c; lora_config := lora_config c;
     device_config := device_config c |}.
Definition on_cache_config (f : CacheConfig → CacheConfig) (c : VllmConfig) : VllmConfig :=
  {| model_config := model_config c; cache_config := f <$> cache_config c;
     scheduler_config := scheduler_config c; parallel_config := parallel_config c;
     compilation_config := compilation_config c; lora_config := lora_config c;
     device_config := device_config c |}.
Definition on_scheduler_config (f : SchedulerConfig → SchedulerConfig) (c : VllmConfig)
    : VllmConfig :=
  {| model_config := model_config c; cache_config := cache_config c;
     scheduler_config := f (scheduler_config c); parallel_config := parallel_config c;
     compilation_config := compilation_config c; lora_config := lora_config c;
     device_config := device_config c |}.
Definition on_parallel_config (f : ParallelConfig → ParallelConfig) (c : VllmConfig)
    : VllmConfig :=
  {| model_config := model_config c; cache_config := cache_config c;
     scheduler_config := scheduler_config c; parallel_config := f (parallel_config c);
     compilation_config := compilation_config c; lora_config := lora_config c;
     device_config := device_config c |}.
Definition on_compilation_config (f : CompilationConfig → CompilationConfig) (c : VllmConfig)
    : VllmConfig :=
  {| model_config := model_config c; cache_config := cache_config c;
     scheduler_config := scheduler_config c; parallel_config := parallel_config c;
     compilation_config := f (compilation_config c); lora_config := lora_config c;
     device_config := device_config c |}.

(** ** The process state and the monad of the platform code *)

(** The configuration attributes the platform assigns to. *)
Inductive CfgField :=
  | model_config__disable_cascade_attn
  | model_config__dtype
  | cache_config__block_size
  | cache_config__cache_dtype
  | cache_config__cpu_kvcache_space_bytes
  | scheduler_config__enable_chunked_prefill
  | scheduler_config__chunked_prefill_enabled
  | scheduler_config__max_num_batched_tokens
  | parallel_config__distributed_executor_backend
  | parallel_config__worker_cls
  | compilation_config__cudagraph_capture_sizes
  | compilation_config__level
  | compilation_config__backend
  | compilation_config__inductor_compile_config
  | compilation_config__custom_ops.

Global Instance CfgField_eq_dec : EqDecision CfgField.
Proof. solve_decision. Defined.

(** The writes of a run, in program order. *)
Inductive Event :=
  | CfgWrite (field : CfgField)
  | EnvWrite (name value : string).

Record World := {
  cfg : VllmConfig;
  environ : gmap string string;
  trace : list Event;
  log : list LogRecord
}.

Definition M (A : Type) : Type := World → Result A * World.

Global Instance M_ret : MRet M := λ A a w, (Ok a, w).
Global Instance M_bind : MBind M := λ A B f m w,
  match m w with
  | (Ok a, w') => f a w'
  | (Raise e, w') => (Raise e, w')
  end.

Definition raise {A} (e : PyExc) : M A := λ w, (Raise e, w).

Definition read {A} (f : World → A) : M A := λ w, (Ok (f w), w).

(** [obj.attr = v] on the configuration aggregate. *)
Definition assign (field : CfgField) (upd : VllmConfig → VllmConfig) : M unit := λ w,
  (Ok (), {| cfg := upd (cfg w); environ := environ w;
             trace := trace w ++ [CfgWrite field]; log := log w |}).

(** [os.environ[name] = value] *)
Definition setenv (name value : string) : M unit := λ w,
  (Ok (), {| cfg := cfg w; environ := <[name := value]> (environ w);
             trace := trace w ++ [EnvWrite name value]; log := log w |}).

Definition logger (lvl : LogLevel) (msg : string) : M unit := λ w,
  (Ok (), {| cfg := cfg w; environ := environ w; trace := trace w;
             log := log w ++ [{| log_level := lvl; log_message := msg |}] |}).

(** [logger.warning_once]: a message already logged is not logged again. *)
Definition logger_warning_once (msg : string) : M unit := λ w,
  if bool_decide (msg ∈ log_message <$> log w) then (Ok (), w)
  else logger WARNING msg w.

(** An attribute of [cache_config], which may be [None]. *)
Definition cache_attr {A} (attr : string) (f : CacheConfig → A) : M A :=
  cache_config ← read (cache_config ∘ cfg);
  match cache_config with
  | Some c => mret (f c)
  | None => raise (AttributeError attr)
  end.

Definition assign_cache_attr (field : CfgField) (attr : string)
    (upd : CacheConfig → CacheConfig) : M unit :=
  cache_attr attr (λ _, ());;
  assign field (on_cache_config upd).

(** [str(x)] of an integer or [None]. *)
Definition py_str (x : option Z) : string :=
  match x with
  | Some n => pretty n
  | None => "None"
  end.

(** [sub in s] on strings. *)
Definition py_contains (sub s : string) : bool :=
  bool_decide (is_Some (String.index 0 sub s)).

(** ** get_max_threads (lines 28-34) *)

Definition get_max_threads (h : Host) : M (option Z) :=
  match sched_getaffinity h with
  | Some affinity => mret (Some (Z.of_nat (size affinity)))
  | None =>
      if bool_decide (platform_system h = "Darwin") then mret (os_cpu_count h)
      else raise (NotImplementedError "Unsupported OS")
  end.

(** ** CpuPlatform (lines 66-336) *)

Module CpuPlatform.

(** lines 73-85 *)
Definition supported_dtypes (h : Host) : list torch_dtype :=
  if bool_decide (cpu_architecture h = POWERPC) then [bfloat16; float32]
  else if String.prefix "darwin" (sys_platform h)
          && bool_decide (cpu_architecture h = ARM)
  then [float16; float32]
  else [bfloat16; float16; float32].

(** lines 91-103 *)
Definition get_attn_backend_cls (selected_backend : option _Backend)
    (head_size : Z) (dtype : torch_dtype) (kv_cache_dtype : option string)
    (block_size : Z) (use_v1 use_mla : bool) : M string :=
  (match selected_backend with
   | Some b =>
       if bool_decide (b ≠ TORCH_SDPA)
       then logger INFO ("Cannot use " +:+ _Backend_str b +:+ " backend on CPU.")
       else mret ()
   | None => mret ()
   end);;
  (if use_mla then raise (NotImplementedError "MLA is not supported on CPU.")
   else mret ());;
  logger INFO "Using Torch SDPA backend.";;
  (if negb use_v1 then raise (ValueError "CPU backend only supports V1.")
   else mret ());;
  mret "vllm.v1.attention.backends.cpu_attn.TorchSDPABackend".

(** lines 105-119 *)
Definition get_device_total_memory (h : Host) : M Z :=
  match VLLM_CPU_KVCACHE_SPACE h with
  | None =>
      logger_warning_once
        ("Environment variable VLLM_CPU_KVCACHE_SPACE (GiB) "
         +:+ "for CPU backend is not set, using 4 by default.");;
      mret (4 * GiB_bytes h)
  | Some kv_cache_space => mret (kv_cache_space * GiB_bytes h)
  end.

(** *** check_and_update_config (lines 136-268), block by block *)

(** lines 138-141 *)
Definition disable_cascade_attention : M unit :=
  model_config ← read (model_config ∘ cfg);
  if model_config is Some _
  then assign model_config__disable_cascade_attn
         (on_model_config (set_disable_cascade_attn true))
  else mret ().

(** lines 143-153 *)
Definition resolve_block_size (h : Host) : M unit :=
  cache_config ← read (cache_config ∘ cfg);
  let ipex_available := ipex_installed h in
  (match cache_config with
   | Some c =>
       if block_size c is None
       then assign cache_config__block_size
              (on_cache_config
                 (set_block_size (Some (if ipex_available then 128 else 16))))
       else mret ()
   | None => mret ()
   end);;
  if negb ipex_available then
    bs ← cache_attr "block_size" block_size;
    if bool_decide (bs ≠ Some 16)
    then raise (RuntimeError ("--block-size=" +:+ py_str bs +:+ " requires"
                              +:+ " intel_extension_for_pytorch"))
    else mret ()
  else mret ().

(** lines 155-160 *)
Definition reject_fp8_with_chunked_prefill : M unit :=
  chunked ← read (chunked_prefill_enabled ∘ scheduler_config ∘ cfg);
  chunked_or_prefix ←
    (if (chunked : bool) then mret true
     else cache_attr "enable_prefix_caching" enable_prefix_caching);
  if (chunked_or_prefix : bool) then
    cache_dtype ← cache_attr "cache_dtype" cache_dtype;
    if bool_decide (cache_dtype ≠ "auto")
    then raise (RuntimeError ("Chunked-prefill and prefix-cache on the CPU "
                              +:+ "backend is not compatible with FP8 KV cache."))
    else mret ()
  else mret ().

(** lines 162-166 *)
Definition remap_fp8_e4m3 : M unit :=
  cache_dtype ← cache_attr "cache_dtype" cache_dtype;
  if bool_decide (cache_dtype = "fp8_e4m3") then
    assign cache_config__cache_dtype (on_cache_config (set_cache_dtype "fp8_e5m2"));;
    logger WARNING ("CPU backend doesn't support fp8_e4m3 KV cache type, "
                    +:+ "cast to fp8_e5m2.")
  else mret ().

(** lines 168-172 *)
Definition upgrade_half_dtype : M unit :=
  cache_dtype ← cache_attr "cache_dtype" cache_dtype;
  model_config ← read (model_config ∘ cfg);
  match model_config with
  | Some m =>
      if bool_decide (cache_dtype ≠ "auto") && bool_decide (dtype m = half) then
        logger WARNING ("FP8 KV cache on the CPU backend only does not"
                        +:+ " support fp16 for now, cast to bf16.");;
        assign model_config__dtype (on_model_config (set_dtype bfloat16))
      else mret ()
  | None => mret ()
  end.

(** lines 174-175 *)
Definition store_kvcache_space (h : Host) : M unit :=
  space ← get_device_total_memory h;
  assign_cache_attr cache_config__cpu_kvcache_space_bytes "cpu_kvcache_space_bytes"
    (set_cpu_kvcache_space_bytes (Some space)).

(** lines 177-186 *)
Definition resolve_parallel_config : M unit :=
  parallel ← read (parallel_config ∘ cfg);
  (match distributed_executor_backend parallel with
   | Some executor =>
       if bool_decide (world_size parallel > 1)
          && bool_decide (executor ≠ "mp") then
         logger WARNING (executor +:+ " is not supported on CPU, fallback to mp "
                         +:+ "distributed executor backend.");;
         assign parallel_config__distributed_executor_backend
           (on_parallel_config (set_distributed_executor_backend (Some "mp")))
       else mret ()
   | None => mret ()
   end);;
  worker ← read (worker_cls ∘ parallel_config ∘ cfg);
  if bool_decide (worker = "auto")
  then assign parallel_config__worker_cls
         (on_parallel_config (set_worker_cls "vllm.v1.worker.cpu_worker.CPUWorker"))
  else mret ().

(** line 190 *)
Definition clear_cudagraph_capture_sizes : M unit :=
  assign compilation_config__cudagraph_capture_sizes
    (on_compilation_config (set_cudagraph_capture_sizes (Some []))).

(** The dictionary passed to [inductor_compile_config.update]. *)
Definition inductor_overrides : gmap string PyValue :=
  <["dce" := PyBool true]>
    (<["size_asserts" := PyBool false]>
       (<["nan_asserts" := PyBool false]>
          (<["epilogue_fusion" := PyBool true]> ∅))).

(** [os.environ.get("VLLM_CPU_CI_ENV", "0") != "0"] *)
Definition ci_env (env : gmap string string) : bool :=
  bool_decide (default "0" (env !! "VLLM_CPU_CI_ENV") ≠ "0").

(** lines 192-220 *)
Definition lower_piecewise_compilation : M unit :=
  lvl ← read (level ∘ compilation_config ∘ cfg);
  if bool_decide (lvl = PIECEWISE) then
    env ← read environ;
    let backend := if ci_env env then "eager" else "inductor" in
    assign compilation_config__level (on_compilation_config (set_level DYNAMO_ONCE));;
    assign compilation_config__backend (on_compilation_config (set_backend backend));;
    assign compilation_config__inductor_compile_config
      (on_compilation_config
         (λ c, set_inductor_compile_config
                 (inductor_overrides ∪ inductor_compile_config c) c));;
    inductor ← read (use_inductor ∘ compilation_config ∘ cfg);
    if (inductor : bool)
    then assign compilation_config__custom_ops
           (on_compilation_config (set_custom_ops ["none"]))
    else mret ()
  else mret ().

(** lines 222-223 *)
Definition disable_compilation_for_lora : M unit :=
  lora_config ← read (lora_config ∘ cfg);
  if lora_config is Some _
  then assign compilation_config__level (on_compilation_config (set_level NO_COMPILATION))
  else mret ().

(** line 225 *)
Definition assert_cpu_device : M unit :=
  device ← read (device_type ∘ device_config ∘ cfg);
  if bool_decide (device = "cpu") then mret () else raise AssertionError.

(** lines 227-258 *)
Definition set_environment (h : Host) : M unit :=
  setenv "VLLM_WORKER_MULTIPROC_METHOD" "spawn";;
  max_threads ← get_max_threads h;
  setenv "NUMEXPR_MAX_THREADS" (py_str max_threads);;
  setenv "OMP_NUM_THREADS" (py_str (Some (torch_num_threads h)));;
  setenv "TORCHINDUCTOR_COMPILE_THREADS" "1";;
  ld_prealod_str ← read (λ w, default "" (environ w !! "LD_PRELOAD"));
  (if py_contains "libiomp5.so" ld_prealod_str then
     setenv "KMP_BLOCKTIME" "1";;
     setenv "KMP_TPAUSE" "0";;
     setenv "KMP_FORKJOIN_BARRIER_PATTERN" "dist,dist";;
     setenv "KMP_PLAIN_BARRIER_PATTERN" "dist,dist";;
     setenv "KMP_REDUCTION_BARRIER_PATTERN" "dist,dist"
   else mret ());;
  tp ← read (tensor_parallel_size ∘ parallel_config ∘ cfg);
  setenv "LOCAL_WORLD_SIZE" (py_str (Some tp)).

(** lines 260-268 *)
Definition force_mla_scheduling (h : Host) : M unit :=
  model_config ← read (model_config ∘ cfg);
  match model_config with
  | Some m =>
      if use_mla m then
        logger INFO ("MLA is enabled on a non-GPU platform; forcing chunked "
                     +:+ "prefill and prefix caching to be disabled.");;
        assign scheduler_config__enable_chunked_prefill
          (on_scheduler_config (set_enable_chunked_prefill false));;
        assign scheduler_config__chunked_prefill_enabled
          (on_scheduler_config (set_chunked_prefill_enabled false));;
        max_len ← read (max_model_len ∘ scheduler_config ∘ cfg);
        assign scheduler_config__max_num_batched_tokens
          (on_scheduler_config
             (set_max_num_batched_tokens
                (Z.max max_len (DEFAULT_MAX_NUM_BATCHED_TOKENS h))))
      else mret ()
  | None => mret ()
  end.

(** lines 136-268: the blocks in program order *)
Definition check_and_update_config (h : Host) : M unit :=
  disable_cascade_attention;;
  resolve_block_size h;;
  reject_fp8_with_chunked_prefill;;
  remap_fp8_e4m3;;
  upgrade_half_dtype;;
  store_kvcache_space h;;
  resolve_parallel_config;;
  clear_cudagraph_capture_sizes;;
  lower_piecewise_compilation;;
  disable_compilation_for_lora;;
  assert_cpu_device;;
  set_environment h;;
  force_mla_scheduling h.

(** *** get_allowed_cpu_memory_node_list (lines 270-300) *)

(** [-1 not in (x.id, x.physical_core, x.numa_node)] *)
Definition has_valid_attributes (x : LogicalCPUInfo.t) : bool :=
  bool_decide ((-1) ∉ [LogicalCPUInfo.id x; LogicalCPUInfo.physical_core x;
                       LogicalCPUInfo.numa_node x]).

(** lines 283-286, the comprehension [[x for x in logical_cpu_list if ...]]:
    the condition reads [x.id], which an entry that [json_decoder] handed
    back as a dictionary does not have. *)
Fixpoint filter_valid_attributes
    (logical_cpu_list : list (LogicalCPUInfo.t + gmap string JsonValue))
    : Result (list LogicalCPUInfo.t) :=
  match logical_cpu_list with
  | [] => Ok []
  | inl x :: logical_cpu_list =>
      match filter_valid_attributes logical_cpu_list with
      | Ok kept => Ok (if has_valid_attributes x then x :: kept else kept)
      | Raise e => Raise e
      end
  | inr _ :: _ => Raise (AttributeError "id")
  end.

Definition get_allowed_cpu_memory_node_list (h : Host)
    : Result (list Z * list LogicalCPUInfo.t) :=
  if bool_decide (platform_system h = "Linux") then
    let logical_cpu_list := LogicalCPUInfo.json_decoder <$> lscpu_cpus h in
    match filter_valid_attributes logical_cpu_list with
    | Ok logical_cpu_list =>
        match sched_getaffinity h with
        | Some allowed_cpu_id_list =>
            let logical_cpu_list :=
              List.filter
                (λ x, bool_decide (LogicalCPUInfo.id x ∈ allowed_cpu_id_list))
                logical_cpu_list in
            let allowed_numa_nodes : gset Z :=
              foldl (λ s x, s ∪ {[LogicalCPUInfo.numa_node x]}) ∅
                logical_cpu_list in
            let allowed_numa_nodes_list :=
              merge_sort Z.le (elements allowed_numa_nodes) in
            Ok (allowed_numa_nodes_list, logical_cpu_list)
        | None => Raise (AttributeError "sched_getaffinity")
        end
    | Raise e => Raise e
    end
  else Raise AssertionError.

(** lines 302-336 *)
Definition is_pin_memory_available : M bool :=
  logger WARNING "Pin memory is not supported on CPU.";;
  mret false.

Definition get_punica_wrapper : string :=
  "vllm.lora.punica_wrapper.punica_cpu.PunicaWrapperCPU".

Definition get_device_communicator_cls : string :=
  "vllm.distributed.device_communicators.cpu_communicator.CpuCommunicator".

(** lines 67-71 *)
Definition device_name : string := "cpu".
Definition device_type : string := "cpu".
Definition dispatch_key : string := "CPU".
Definition dist_backend : string := "gloo".

End CpuPlatform.

(** ** The effect of each block, as functions of the configuration and the
    environment

    For the proofs every block of [check_and_update_config] gets a pure
    description of what it does to the configuration and to [os.environ],
    which exception it raises, and which writes it performs. The lemmas
    [*_implements] below show each description to be what the block does. *)

Record Outcome := {
  out_result : Result unit;
  out_cfg : VllmConfig;
  out_environ : gmap string string;
  out_trace : list Event
}.

Definition implements (m : M unit)
    (f : VllmConfig → gmap string string → Outcome) : Prop :=
  ∀ w, (m w).1 = out_result (f (cfg w) (environ w))
     ∧ cfg (m w).2 = out_cfg (f (cfg w) (environ w))
     ∧ environ (m w).2 = out_environ (f (cfg w) (environ w))
     ∧ trace (m w).2 = trace w ++ out_trace (f (cfg w) (environ w)).

(** Sequencing: the second effect runs only when the first one returns. *)
Definition and_then (f g : VllmConfig → gmap string string → Outcome)
    : VllmConfig → gmap string string → Outcome := λ c e,
  {| out_result :=
       match out_result (f c e) with
       | Ok _ => out_result (g (out_cfg (f c e)) (out_environ (f c e)))
       | Raise x => Raise x
       end;
     out_cfg :=
       match out_result (f c e) with
       | Ok _ => out_cfg (g (out_cfg (f c e)) (out_environ (f c e)))
       | Raise _ => out_cfg (f c e)
       end;
     out_environ :=
       match out_result (f c e) with
       | Ok _ => out_environ (g (out_cfg (f c e)) (out_environ (f c e)))
       | Raise _ => out_environ (f c e)
       end;
     out_trace :=
       match out_result (f c e) with
       | Ok _ => out_trace (f c e)
                 ++ out_trace (g (out_cfg (f c e)) (out_environ (f c e)))
       | Raise _ => out_trace (f c e)
       end |}.

Module Effect.

Definition disable_cascade_attention (c : VllmConfig) (e : gmap string string)
    : Outcome :=
  {| out_result := Ok ();
     out_cfg := on_model_config (set_disable_cascade_attn true) c;
     out_environ := e;
     out_trace := if model_config c is Some _
                  then [CfgWrite model_config__disable_cascade_attn] else [] |}.

Definition default_block_size (h : Host) (cc : CacheConfig) : CacheConfig :=
  if block_size cc is None
  then set_block_size (Some (if ipex_installed h then 128 else 16)) cc
  else cc.

Definition block_size_error (bs : option Z) : PyExc :=
  RuntimeError ("--block-size=" +:+ py_str bs +:+ " requires"
                +:+ " intel_extension_for_pytorch").

Definition resolve_block_size (h : Host) (c : VllmConfig) (e : gmap string string)
    : Outcome :=
  {| out_result :=
       if ipex_installed h then Ok ()
       else match cache_config c with
            | Some cc =>
                if bool_decide (block_size (default_block_size h cc) ≠ Some 16)
                then Raise (block_size_error (block_size (default_block_size h cc)))
                else Ok ()
            | None => Raise (AttributeError "block_size")
            end;
     out_cfg := on_cache_config (default_block_size h) c;
     out_environ := e;
     out_trace :=
       match cache_config c with
       | Some cc => if block_size cc is None
                    then [CfgWrite cache_config__block_size] else []
       | None => []
       end |}.

Definition fp8_error : PyExc :=
  RuntimeError ("Chunked-prefill and prefix-cache on the CPU "
                +:+ "backend is not compatible with FP8 KV cache.").

Definition reject_fp8_with_chunked_prefill (c : VllmConfig)
    (e : gmap string string) : Outcome :=
  {| out_result :=
       match cache_config c with
       | Some cc =>
           if (chunked_prefill_enabled (scheduler_config c)
               || enable_prefix_caching cc)
              && bool_decide (cache_dtype cc ≠ "auto")
           then Raise fp8_error else Ok ()
       | None =>
           Raise (AttributeError
                    (if chunked_prefill_enabled (scheduler_config c)
                     then "cache_dtype" else "enable_prefix_caching"))
       end;
     out_cfg := c;
     out_environ := e;
     out_trace := [] |}.

Definition remapped_cache_dtype (cc : CacheConfig) : CacheConfig :=
  if bool_decide (cache_dtype cc = "fp8_e4m3")
  then set_cache_dtype "fp8_e5m2" cc else cc.

Definition remap_fp8_e4m3 (c : VllmConfig) (e : gmap string string) : Outcome :=
  {| out_result :=
       if cache_config c is Some _ then Ok ()
       else Raise (AttributeError "cache_dtype");
     out_cfg := on_cache_config remapped_cache_dtype c;
     out_environ := e;
     out_trace :=
       match cache_config c with
       | Some cc => if bool_decide (cache_dtype cc = "fp8_e4m3")
                    then [CfgWrite cache_config__cache_dtype] else []
       | None => []
       end |}.

Definition upgraded_dtype (kv_dtype : string) (m : ModelConfig) : ModelConfig :=
  if bool_decide (kv_dtype ≠ "auto") && bool_decide (dtype m = half)
  then set_dtype bfloat16 m else m.

Definition upgrade_half_dtype (c : VllmConfig) (e : gmap string string) : Outcome :=
  {| out_result :=
       if cache_config c is Some _ then Ok ()
       else Raise (AttributeError "cache_dtype");
     out_cfg :=
       on_model_config
         (λ m, match cache_config c with
               | Some cc => upgraded_dtype (cache_dtype cc) m
               | None => m
               end) c;
     out_environ := e;
     out_trace :=
       match cache_config c, model_config c with
       | Some cc, Some m =>
           if bool_decide (cache_dtype cc ≠ "auto") && bool_decide (dtype m = half)
           then [CfgWrite model_config__dtype] else []
       | _, _ => []
       end |}.

(** The value [get_device_total_memory] returns. *)
Definition device_total_memory (h : Host) : Z :=
  match VLLM_CPU_KVCACHE_SPACE h with
  | None => 4 * GiB_bytes h
  | Some kv_cache_space => kv_cache_space * GiB_bytes h
  end.

Definition store_kvcache_space (h : Host) (c : VllmConfig) (e : gmap string string)
    : Outcome :=
  {| out_result :=
       if cache_config c is Some _ then Ok ()
       else Raise (AttributeError "cpu_kvcache_space_bytes");
     out_cfg :=
       on_cache_config (set_cpu_kvcache_space_bytes (Some (device_total_memory h))) c;
     out_environ := e;
     out_trace :=
       if cache_config c is Some _
       then [CfgWrite cache_config__cpu_kvcache_space_bytes] else [] |}.

Definition falls_back_to_mp (p : ParallelConfig) : bool :=
  match distributed_executor_backend p with
  | Some executor => bool_decide (world_size p > 1) && bool_decide (executor ≠ "mp")
  | None => false
  end.

Definition resolved_parallel_config (p : ParallelConfig) : ParallelConfig :=
  {| world_size := world_size p;
     tensor_parallel_size := tensor_parallel_size p;
     distributed_executor_backend :=
       if falls_back_to_mp p then Some "mp" else distributed_executor_backend p;
     worker_cls :=
       if bool_decide (worker_cls p = "auto")
       then "vllm.v1.worker.cpu_worker.CPUWorker" else worker_cls p |}.

Definition resolve_parallel_config (c : VllmConfig) (e : gmap string string)
    : Outcome :=
  {| out_result := Ok ();
     out_cfg := on_parallel_config resolved_parallel_config c;
     out_environ := e;
     out_trace :=
       (if falls_back_to_mp (parallel_config c)
        then [CfgWrite parallel_config__distributed_executor_backend] else [])
       ++ (if bool_decide (worker_cls (parallel_config c) = "auto")
           then [CfgWrite parallel_config__worker_cls] else []) |}.

Definition clear_cudagraph_capture_sizes (c : VllmConfig) (e : gmap string string)
    : Outcome :=
  {| out_result := Ok ();
     out_cfg := on_compilation_config (set_cudagraph_capture_sizes (Some [])) c;
     out_environ := e;
     out_trace := [CfgWrite compilation_config__cudagraph_capture_sizes] |}.

Definition lowered_compilation_config (e : gmap string string)
    (k : CompilationConfig) : CompilationConfig :=
  if bool_decide (level k = PIECEWISE) then
    {| level := DYNAMO_ONCE;
       backend := if CpuPlatform.ci_env e then "eager" else "inductor";
       use_inductor := use_inductor k;
       custom_ops := if use_inductor k then ["none"] else custom_ops k;
       cudagraph_capture_sizes := cudagraph_capture_sizes k;
       inductor_compile_config :=
         CpuPlatform.inductor_overrides ∪ inductor_compile_config k |}
  else k.

Definition lower_piecewise_compilation (c : VllmConfig) (e : gmap string string)
    : Outcome :=
  {| out_result := Ok ();
     out_cfg := on_compilation_config (lowered_compilation_config e) c;
     out_environ := e;
     out_trace :=
       if bool_decide (level (compilation_config c) = PIECEWISE) then
         [CfgWrite compilation_config__level;
          CfgWrite compilation_config__backend;
          CfgWrite compilation_config__inductor_compile_config]
         ++ (if use_inductor (compilation_config c)
             then [CfgWrite compilation_config__custom_ops] else [])
       else [] |}.

Definition disable_compilation_for_lora (c : VllmConfig) (e : gmap string string)
    : Outcome :=
  {| out_result := Ok ();
     out_cfg :=
       on_compilation_config
         (λ k, if lora_config c is Some _ then set_level NO_COMPILATION k else k) c;
     out_environ := e;
     out_trace := if lora_config c is Some _
                  then [CfgWrite compilation_config__level] else [] |}.

Definition assert_cpu_device (c : VllmConfig) (e : gmap string string) : Outcome :=
  {| out_result :=
       if bool_decide (device_type (device_config c) = "cpu")
       then Ok () else Raise AssertionError;
     out_cfg := c;
     out_environ := e;
     out_trace := [] |}.

(** The value [get_max_threads] returns, when it returns. *)
Definition max_threads (h : Host) : option (option Z) :=
  match sched_getaffinity h with
  | Some affinity => Some (Some (Z.of_nat (size affinity)))
  | None => if bool_decide (platform_system h = "Darwin")
            then Some (os_cpu_count h) else None
  end.

Definition iomp_preloaded (e : gmap string string) : bool :=
  py_contains "libiomp5.so" (default "" (e !! "LD_PRELOAD")).

(** The assignments to [os.environ], in program order. *)
Definition environment_writes (h : Host) (c : VllmConfig) (e : gmap string string)
    : list (string * string) :=
  ("VLLM_WORKER_MULTIPROC_METHOD", "spawn") ::
  match max_threads h with
  | Some n =>
      [("NUMEXPR_MAX_THREADS", py_str n);
       ("OMP_NUM_THREADS", py_str (Some (torch_num_threads h)));
       ("TORCHINDUCTOR_COMPILE_THREADS", "1")]
      ++ (if iomp_preloaded e
          then [("KMP_BLOCKTIME", "1");
                ("KMP_TPAUSE", "0");
                ("KMP_FORKJOIN_BARRIER_PATTERN", "dist,dist");
                ("KMP_PLAIN_BARRIER_PATTERN", "dist,dist");
                ("KMP_REDUCTION_BARRIER_PATTERN", "dist,dist")]
          else [])
      ++ [("LOCAL_WORLD_SIZE", py_str (Some (tensor_parallel_size (parallel_config c))))]
  | None => []
  end.

Definition set_environment (h : Host) (c : VllmConfig) (e : gmap string string)
    : Outcome :=
  {| out_result :=
       if max_threads h is Some _ then Ok ()
       else Raise (NotImplementedError "Unsupported OS");
     out_cfg := c;
     out_environ :=
       foldl (λ env kv, <[kv.1 := kv.2]> env) e (environment_writes h c e);
     out_trace := (λ kv, EnvWrite kv.1 kv.2) <$> environment_writes h c e |}.

Definition mla_enabled (c : VllmConfig) : bool :=
  match model_config c with
  | Some m => use_mla m
  | None => false
  end.

Definition force_mla_scheduling (h : Host) (c : VllmConfig) (e : gmap string string)
    : Outcome :=
  {| out_result := Ok ();
     out_cfg :=
       on_scheduler_config
         (λ s, if mla_enabled c then
                 {| enable_chunked_prefill := false;
                    chunked_prefill_enabled := false;
                    max_num_batched_tokens :=
                      Z.max (max_model_len s) (DEFAULT_MAX_NUM_BATCHED_TOKENS h);
                    max_model_len := max_model_len s |}
               else s) c;
     out_environ := e;
     out_trace :=
       if mla_enabled c then
         [CfgWrite scheduler_config__enable_chunked_prefill;
          CfgWrite scheduler_config__chunked_prefill_enabled;
          CfgWrite scheduler_config__max_num_batched_tokens]
       else [] |}.

Definition check_and_update_config (h : Host)
    : VllmConfig → gmap string string → Outcome :=
  and_then disable_cascade_attention
  (and_then (resolve_block_size h)
  (and_then reject_fp8_with_chunked_prefill
  (and_then remap_fp8_e4m3
  (and_then upgrade_half_dtype
  (and_then (store_kvcache_space h)
  (and_then resolve_parallel_config
  (and_then clear_cudagraph_capture_sizes
  (and_then lower_piecewise_compilation
  (and_then disable_compilation_for_lora
  (and_then assert_cpu_device
  (and_then (set_environment h)
            (force_mla_scheduling h)))))))))))).

(** The configuration and the environment once every block has run. *)
Definition final_cfg (h : Host) (e : gmap string string) (c : VllmConfig) : VllmConfig :=
  let c := out_cfg (disable_cascade_attention c e) in
  let c := out_cfg (resolve_block_size h c e) in
  let c := out_cfg (remap_fp8_e4m3 c e) in
  let c := out_cfg (upgrade_half_dtype c e) in
  let c := out_cfg (store_kvcache_space h c e) in
  let c := out_cfg (resolve_parallel_config c e) in
  let c := out_cfg (clear_cudagraph_capture_sizes c e) in
  let c := out_cfg (lower_piecewise_compilation c e) in
  let c := out_cfg (disable_compilation_for_lora c e) in
  out_cfg (force_mla_scheduling h c e).

Definition final_environ (h : Host) (e : gmap string string) (c : VllmConfig)
    : gmap string string :=
  out_environ (set_environment h c e).

(** The checks that let [check_and_update_config] return. *)
Definition block_size_accepted (h : Host) (cc : CacheConfig) : Prop :=
  ipex_installed h = true ∨ block_size cc = None ∨ block_size cc = Some 16.

Definition fp8_accepted (c : VllmConfig) (cc : CacheConfig) : Prop :=
  (chunked_prefill_enabled (scheduler_config c) || enable_prefix_caching cc = true)
  → cache_dtype cc = "auto".

End Effect.

(** ** Concrete hosts and configurations used in the examples below *)

Definition cpu_info (id physical_core numa_node : Z) : LogicalCPUInfo.t :=
  {| LogicalCPUInfo.id := id;
     LogicalCPUInfo.physical_core := physical_core;
     LogicalCPUInfo.numa_node := numa_node |}.

(** An [lscpu] object with the three fields. *)
Definition lscpu_object (cpu core node : JsonValue) : gmap string JsonValue :=
  <["cpu" := cpu]> (<["core" := core]> (<["node" := node]> ∅)).

(** The [lscpu] object of a CPU whose three fields are integers. *)
Definition lscpu_entry (cpu core node : Z) : gmap string JsonValue :=
  lscpu_object (JInt cpu) (JInt core) (JInt node).

(** The object has the field [key], and its value is not [null]. *)
Definition has_field (obj_dict : gmap string JsonValue) (key : string) : Prop :=
  ∃ value, obj_dict !! key = Some value ∧ value ≠ JNull.

(** The object has the three fields of a logical CPU. *)
Definition has_fields (obj_dict : gmap string JsonValue) : Prop :=
  has_field obj_dict "cpu" ∧ has_field obj_dict "core"
  ∧ has_field obj_dict "node".

Global Instance has_field_dec obj_dict key : Decision (has_field obj_dict key).
Proof.
  unfold has_field. destruct (obj_dict !! key) as [value|].
  - destruct (decide (value = JNull)) as [->|Hv].
    + right. by intros (? & [= <-] & ?).
    + left. by exists value.
  - right. by intros (? & ? & ?).
Defined.

Global Instance has_fields_dec obj_dict : Decision (has_fields obj_dict).
Proof. unfold has_fields. apply _. Defined.

(** The records that the decoder builds from a list of objects. *)
Definition records (l : list (gmap string JsonValue)) : list LogicalCPUInfo.t :=
  omap (λ obj_dict, match LogicalCPUInfo.json_decoder obj_dict with
                    | inl x => Some x
                    | inr _ => None
                    end) l.

(** The CPUs discovery keeps for the affinity mask [mask]. *)
Definition allowed (mask : gset Z) (x : LogicalCPUInfo.t) : Prop :=
  LogicalCPUInfo.id x ≠ -1
  ∧ LogicalCPUInfo.physical_core x ≠ -1
  ∧ LogicalCPUInfo.numa_node x ≠ -1
  ∧ LogicalCPUInfo.id x ∈ mask.

Global Instance allowed_dec mask x : Decision (allowed mask x).
Proof. unfold allowed. apply _. Defined.

(** An x86 Linux machine with four logical CPUs on two NUMA nodes, the
    process being allowed on CPUs 0 and 2; no accelerated extension. *)
Definition linux_host : Host :=
  {| cpu_architecture := X86;
     sys_platform := "linux";
     platform_system := "Linux";
     sched_getaffinity := Some ({[0; 2]} : gset Z);
     os_cpu_count := Some 4;
     torch_num_threads := 4;
     ipex_installed := false;
     VLLM_CPU_KVCACHE_SPACE := None;
     GiB_bytes := 2 ^ 30;
     DEFAULT_MAX_NUM_BATCHED_TOKENS := 2048;
     lscpu_cpus := [lscpu_entry 0 0 1; lscpu_entry 1 0 1;
                    lscpu_entry 2 1 0; lscpu_entry 3 1 0] |}.

Definition powerpc_host : Host :=
  {| cpu_architecture := POWERPC;
     sys_platform := "linux";
     platform_system := "Linux";
     sched_getaffinity := Some ({[0]} : gset Z);
     os_cpu_count := Some 1;
     torch_num_threads := 1;
     ipex_installed := false;
     VLLM_CPU_KVCACHE_SPACE := None;
     GiB_bytes := 2 ^ 30;
     DEFAULT_MAX_NUM_BATCHED_TOKENS := 2048;
     lscpu_cpus := [lscpu_entry 0 0 0] |}.

Definition darwin_arm_host : Host :=
  {| cpu_architecture := ARM;
     sys_platform := "darwin";
     platform_system := "Darwin";
     sched_getaffinity := None;
     os_cpu_count := Some 8;
     torch_num_threads := 8;
     ipex_installed := false;
     VLLM_CPU_KVCACHE_SPACE := Some 8;
     GiB_bytes := 2 ^ 30;
     DEFAULT_MAX_NUM_BATCHED_TOKENS := 2048;
     lscpu_cpus := [] |}.


Definition plain_model : ModelConfig :=
  {| disable_cascade_attn := false; dtype := bfloat16; use_mla := false |}.

Definition mla_model : ModelConfig :=
  {| disable_cascade_attn := false; dtype := bfloat16; use_mla := true |}.

Definition plain_cache : CacheConfig :=
  {| block_size := None; enable_prefix_caching := false;
     cache_dtype := "auto"; cpu_kvcache_space_bytes := None |}.

Definition plain_scheduler : SchedulerConfig :=
  {| enable_chunked_prefill := false; chunked_prefill_enabled := false;
     max_num_batched_tokens := 8192; max_model_len := 4096 |}.

Definition plain_parallel : ParallelConfig :=
  {| world_size := 1; tensor_parallel_size := 1;
     distributed_executor_backend := None; worker_cls := "auto" |}.

Definition piecewise_compilation : CompilationConfig :=
  {| level := PIECEWISE; backend := ""; use_inductor := true;
     custom_ops := []; cudagraph_capture_sizes := None;
     inductor_compile_config := ∅ |}.

Definition make_config (m : option ModelConfig) (k : CacheConfig)
    (s : SchedulerConfig) (l : option LoRAConfig) : VllmConfig :=
  {| model_config := m; cache_config := Some k; scheduler_config := s;
     parallel_config := plain_parallel;
     compilation_config := piecewise_compilation;
     lora_config := l; device_config := {| device_type := "cpu" |} |}.

Definition plain_config : VllmConfig :=
  make_config (Some plain_model) plain_cache plain_scheduler None.

(** A cache configuration asking for the 8-bit [fp8_e4m3] KV cache. *)
Definition fp8_e4m3_cache : CacheConfig :=
  {| block_size := Some 16; enable_prefix_caching := false;
     cache_dtype := "fp8_e4m3"; cpu_kvcache_space_bytes := None |}.

Definition chunked_scheduler : SchedulerConfig :=
  {| enable_chunked_prefill := true; chunked_prefill_enabled := true;
     max_num_batched_tokens := 8192; max_model_len := 4096 |}.

Definition fp8_e4m3_config : VllmConfig :=
  make_config (Some plain_model) fp8_e4m3_cache plain_scheduler None.

Definition fp8_e4m3_chunked_config : VllmConfig :=
  make_config (Some plain_model) fp8_e4m3_cache chunked_scheduler None.

Definition block_size_32_cache : CacheConfig :=
  {| block_size := Some 32; enable_prefix_caching := false;
     cache_dtype := "auto"; cpu_kvcache_space_bytes := None |}.

Definition block_size_32_config : VllmConfig :=
  make_config (Some plain_model) block_size_32_cache plain_scheduler None.

(** An MLA model served with prefix caching on and a batched-token budget
    above both [max_model_len] and the platform default. *)
Definition prefix_caching_cache : CacheConfig :=
  {| block_size := None; enable_prefix_caching := true;
     cache_dtype := "auto"; cpu_kvcache_space_bytes := None |}.

Definition large_budget_scheduler : SchedulerConfig :=
  {| enable_chunked_prefill := true; chunked_prefill_enabled := true;
     max_num_batched_tokens := 100000; max_model_len := 4096 |}.

Definition mla_config : VllmConfig :=
  make_config (Some mla_model) prefix_caching_cache large_budget_scheduler None.

(** Piecewise compilation together with LoRA adapters. *)
Definition lora_config_example : VllmConfig :=
  make_config (Some plain_model) plain_cache plain_scheduler (Some MkLoRAConfig).

(** The environment of the CPU continuous-integration jobs. *)
Definition ci_environ : gmap string string := {["VLLM_CPU_CI_ENV" := "1"]}.

(** A process that starts with the given configuration and environment. *)
Definition start (c : VllmConfig) (e : gmap string string) : World :=
  {| cfg := c; environ := e; trace := []; log := [] |}.

(** ** Shape of a trace *)

Definition is_cfg_write (ev : Event) : Prop :=
  match ev with CfgWrite _ => True | EnvWrite _ _ => False end.

Definition is_env_write (ev : Event) : Prop :=
  match ev with CfgWrite _ => False | EnvWrite _ _ => True end.

(** The three assignments of the MLA block (lines 264-268). *)
Definition mla_writes : list Event :=
  [CfgWrite scheduler_config__enable_chunked_prefill;
   CfgWrite scheduler_config__chunked_prefill_enabled;
   CfgWrite scheduler_config__max_num_batched_tokens].

(** Environment writes followed by [tm]. *)
Definition env_phase (tm t : list Event) : Prop :=
  ∃ te, t = te ++ tm ∧ Forall is_env_write te.

(** A trace in three phases: configuration writes, then environment writes,
    then [tm]. *)
Definition phased (tm t : list Event) : Prop :=
  ∃ tc te, t = tc ++ te ++ tm ∧ Forall is_cfg_write tc ∧ Forall is_env_write te.

(** ** Definitions for the further properties *)

(** The names [check_and_update_config] may assign in [os.environ]. *)
Definition written_variables : list string :=
  ["VLLM_WORKER_MULTIPROC_METHOD"; "NUMEXPR_MAX_THREADS"; "OMP_NUM_THREADS";
   "TORCHINDUCTOR_COMPILE_THREADS"; "KMP_BLOCKTIME"; "KMP_TPAUSE";
   "KMP_FORKJOIN_BARRIER_PATTERN"; "KMP_PLAIN_BARRIER_PATTERN";
   "KMP_REDUCTION_BARRIER_PATTERN"; "LOCAL_WORLD_SIZE"].

(** What no block changes: [c'] agrees with [c] on the fields that
    [check_and_update_config] never assigns, and on the scheduler
    configuration when MLA is off. *)
Definition frame (c c' : VllmConfig) : Prop :=
  lora_config c' = lora_config c
  ∧ device_config c' = device_config c
  ∧ use_mla <$> model_config c' = use_mla <$> model_config c
  ∧ enable_prefix_caching <$> cache_config c'
    = enable_prefix_caching <$> cache_config c
  ∧ max_model_len (scheduler_config c') = max_model_len (scheduler_config c)
  ∧ world_size (parallel_config c') = world_size (parallel_config c)
  ∧ tensor_parallel_size (parallel_config c')
    = tensor_parallel_size (parallel_config c)
  ∧ use_inductor (compilation_config c') = use_inductor (compilation_config c)
  ∧ (Effect.mla_enabled c = false → scheduler_config c' = scheduler_config c).

(** A configuration without cache configuration. *)
Definition no_cache_config : VllmConfig :=
  {| model_config := Some plain_model; cache_config := None;
     scheduler_config := plain_scheduler; parallel_config := plain_parallel;
     compilation_config := piecewise_compilation;
     lora_config := None; device_config := {| device_type := "cpu" |} |}.

(** A cache configuration already on the supported 8-bit dtype. *)
Definition fp8_e5m2_cache : CacheConfig :=
  {| block_size := Some 16; enable_prefix_caching := false;
     cache_dtype := "fp8_e5m2"; cpu_kvcache_space_bytes := None |}.

Definition fp8_e5m2_chunked_config : VllmConfig :=
  make_config (Some plain_model) fp8_e5m2_cache chunked_scheduler None.

(** A machine whose [os] module has no [sched_getaffinity] and which is not
    a Darwin system. *)
Definition windows_host : Host :=
  {| cpu_architecture := X86;
     sys_platform := "win32";
     platform_system := "Windows";
     sched_getaffinity := None;
     os_cpu_count := Some 8;
     torch_num_threads := 8;
     ipex_installed := false;
     VLLM_CPU_KVCACHE_SPACE := None;
     GiB_bytes := 2 ^ 30;
     DEFAULT_MAX_NUM_BATCHED_TOKENS := 2048;
     lscpu_cpus := [] |}.

(** Where [os.environ] stands when an exception stops the sequence: only the
    unsupported-OS error comes after a write. *)
Definition environ_on_raise (e : gmap string string) (o : Outcome) : Prop :=
  match out_result o with
  | Ok _ => True
  | Raise (NotImplementedError _) =>
      out_environ o = <["VLLM_WORKER_MULTIPROC_METHOD" := "spawn"]> e
  | Raise _ => out_environ o = e
  end.

(** An environment in which the Intel OpenMP runtime is preloaded. *)
Definition iomp_environ : gmap string string :=
  {["LD_PRELOAD" := "/opt/intel/lib/libiomp5.so:/usr/lib/libtcmalloc.so"]}.

(** A two-way tensor-parallel run asking for the Ray executor, with a
    half-precision model and an 8-bit KV cache, not on the piecewise level. *)
Definition ray_parallel : ParallelConfig :=
  {| world_size := 2; tensor_parallel_size := 2;
     distributed_executor_backend := Some "ray"; worker_cls := "auto" |}.

Definition half_model : ModelConfig :=
  {| disable_cascade_attn := false; dtype := float16; use_mla := false |}.

Definition eager_compilation : CompilationConfig :=
  {| level := DYNAMO_AS_IS; backend := "eager"; use_inductor := false;
     custom_ops := ["all"]; cudagraph_capture_sizes := Some [1; 2; 4];
     inductor_compile_config := ∅ |}.

Definition ray_fp8_config : VllmConfig :=
  {| model_config := Some half_model; cache_config := Some fp8_e4m3_cache;
     scheduler_config := plain_scheduler; parallel_config := ray_parallel;
     compilation_config := eager_compilation;
     lora_config := None; device_config := {| device_type := "cpu" |} |}.

(** The host with another [lscpu] listing, and with another affinity mask. *)
Definition with_lscpu (cpus : list (gmap string JsonValue)) (h : Host) : Host :=
  {| cpu_architecture := cpu_architecture h;
     sys_platform := sys_platform h;
     platform_system := platform_system h;
     sched_getaffinity := sched_getaffinity h;
     os_cpu_count := os_cpu_count h;
     torch_num_threads := torch_num_threads h;
     ipex_installed := ipex_installed h;
     VLLM_CPU_KVCACHE_SPACE := VLLM_CPU_KVCACHE_SPACE h;
     GiB_bytes := GiB_bytes h;
     DEFAULT_MAX_NUM_BATCHED_TOKENS := DEFAULT_MAX_NUM_BATCHED_TOKENS h;
     lscpu_cpus := cpus |}.

Definition with_affinity (mask : gset Z) (h : Host) : Host :=
  {| cpu_architecture := cpu_architecture h;
     sys_platform := sys_platform h;
     platform_system := platform_system h;
     sched_getaffinity := Some mask;
     os_cpu_count := os_cpu_count h;
     torch_num_threads := torch_num_threads h;
     ipex_installed := ipex_installed h;
     VLLM_CPU_KVCACHE_SPACE := VLLM_CPU_KVCACHE_SPACE h;
     GiB_bytes := GiB_bytes h;
     DEFAULT_MAX_NUM_BATCHED_TOKENS := DEFAULT_MAX_NUM_BATCHED_TOKENS h;
     lscpu_cpus := lscpu_cpus h |}.

(** The [lscpu] object that spells out a record. *)
Definition as_object (x : LogicalCPUInfo.t) : gmap string JsonValue :=
  lscpu_entry (LogicalCPUInfo.id x) (LogicalCPUInfo.physical_core x)
    (LogicalCPUInfo.numa_node x).

(** A Linux machine whose second [lscpu] object has [null] for its node. *)
Definition missing_node_host : Host :=
  {| cpu_architecture := X86;
     sys_platform := "linux";
     platform_system := "Linux";
     sched_getaffinity := Some ({[0; 1]} : gset Z);
     os_cpu_count := Some 2;
     torch_num_threads := 2;
     ipex_installed := false;
     VLLM_CPU_KVCACHE_SPACE := None;
     GiB_bytes := 2 ^ 30;
     DEFAULT_MAX_NUM_BATCHED_TOKENS := 2048;
     lscpu_cpus := [lscpu_entry 0 0 0; lscpu_object (JInt 1) (JInt 0) JNull] |}.

(** A configuration for another device. *)
Definition cuda_device_config : VllmConfig :=
  {| model_config := Some plain_model; cache_config := Some fp8_e4m3_cache;
     scheduler_config := plain_scheduler; parallel_config := plain_parallel;
     compilation_config := piecewise_compilation;
     lora_config := None; device_config := {| device_type := "cuda" |} |}.

(** * Properties *)

(** ** The monad *)

Lemma bind_run {A B} (m : M A) (f : A → M B) (w : World) :
  (m ≫= f) w = match m w with
               | (Ok a, w') => f a w'
               | (Raise e, w') => (Raise e, w')
               end.
Proof. reflexivity. Qed.

Lemma implements_and_then (m1 m2 : M unit) f g :
  implements m1 f → implements m2 g → implements (m1 ;; m2) (and_then f g).
Proof.
  intros H1 H2 w. rewrite bind_run.
  destruct (H1 w) as (Hr & Hc & He & Ht).
  destruct (m1 w) as [[[]|x] w1]; simpl in *; rewrite <- Hr; simpl.
  - destruct (H2 w1) as (Hr2 & Hc2 & He2 & Ht2).
    rewrite <- Hc, <- He. repeat split; try done.
    rewrite Ht2, Ht. by rewrite app_assoc.
  - done.
Qed.

(** Tactic for the blocks: run the block on an arbitrary state and compare
    with its effect, case by case. *)
Ltac run_block :=
  intros [[mc cc [] [] [] lc []] env tr lg];
  repeat (unfold mbind, M_bind, mret, M_ret, read, assign, raise, setenv, logger,
          logger_warning_once, cache_attr, assign_cache_attr, compose,
          on_model_config, on_cache_config, on_scheduler_config,
          on_parallel_config, on_compilation_config; simpl);
  repeat (case_match; simplify_eq /=);
  repeat match goal with
         | x : ModelConfig |- _ => destruct x
         | x : CacheConfig |- _ => destruct x
         end;
  simplify_eq /=;
  rewrite <- ?app_assoc, ?app_nil_r; repeat split; try done;
  try congruence;
  try (by match goal with x : option ModelConfig |- _ => destruct x as [[]|] end).

Lemma disable_cascade_attention_implements :
  implements CpuPlatform.disable_cascade_attention Effect.disable_cascade_attention.
Proof. unfold CpuPlatform.disable_cascade_attention. run_block. Qed.

Lemma resolve_block_size_implements h :
  implements (CpuPlatform.resolve_block_size h) (Effect.resolve_block_size h).
Proof.
  unfold CpuPlatform.resolve_block_size, Effect.resolve_block_size,
    Effect.default_block_size, Effect.block_size_error.
  run_block.
Qed.

Lemma reject_fp8_with_chunked_prefill_implements :
  implements CpuPlatform.reject_fp8_with_chunked_prefill
    Effect.reject_fp8_with_chunked_prefill.
Proof.
  unfold CpuPlatform.reject_fp8_with_chunked_prefill,
    Effect.reject_fp8_with_chunked_prefill, Effect.fp8_error.
  run_block.
Qed.

Lemma remap_fp8_e4m3_implements :
  implements CpuPlatform.remap_fp8_e4m3 Effect.remap_fp8_e4m3.
Proof.
  unfold CpuPlatform.remap_fp8_e4m3, Effect.remap_fp8_e4m3,
    Effect.remapped_cache_dtype.
  run_block.
Qed.

Lemma upgrade_half_dtype_implements :
  implements CpuPlatform.upgrade_half_dtype Effect.upgrade_half_dtype.
Proof.
  unfold CpuPlatform.upgrade_half_dtype, Effect.upgrade_half_dtype,
    Effect.upgraded_dtype.
  run_block.
Qed.

Lemma store_kvcache_space_implements h :
  implements (CpuPlatform.store_kvcache_space h) (Effect.store_kvcache_space h).
Proof.
  unfold CpuPlatform.store_kvcache_space, Effect.store_kvcache_space,
    CpuPlatform.get_device_total_memory, Effect.device_total_memory.
  run_block.
Qed.

Lemma resolve_parallel_config_implements :
  implements CpuPlatform.resolve_parallel_config Effect.resolve_parallel_config.
Proof.
  unfold CpuPlatform.resolve_parallel_config, Effect.resolve_parallel_config,
    Effect.resolved_parallel_config, Effect.falls_back_to_mp.
  run_block.
Qed.

Lemma clear_cudagraph_capture_sizes_implements :
  implements CpuPlatform.clear_cudagraph_capture_sizes
    Effect.clear_cudagraph_capture_sizes.
Proof. unfold CpuPlatform.clear_cudagraph_capture_sizes. run_block. Qed.

Lemma lower_piecewise_compilation_implements :
  implements CpuPlatform.lower_piecewise_compilation
    Effect.lower_piecewise_compilation.
Proof.
  unfold CpuPlatform.lower_piecewise_compilation,
    Effect.lower_piecewise_compilation, Effect.lowered_compilation_config.
  run_block.
Qed.

Lemma disable_compilation_for_lora_implements :
  implements CpuPlatform.disable_compilation_for_lora
    Effect.disable_compilation_for_lora.
Proof. unfold CpuPlatform.disable_compilation_for_lora. run_block. Qed.

Lemma assert_cpu_device_implements :
  implements CpuPlatform.assert_cpu_device Effect.assert_cpu_device.
Proof. unfold CpuPlatform.assert_cpu_device. run_block. Qed.

Lemma set_environment_implements h :
  implements (CpuPlatform.set_environment h) (Effect.set_environment h).
Proof.
  unfold CpuPlatform.set_environment, Effect.set_environment,
    Effect.environment_writes, Effect.max_threads, Effect.iomp_preloaded,
    get_max_threads.
  intros [c env tr lg].
  repeat (unfold mbind, M_bind, mret, M_ret, read, setenv, raise, compose; simpl).
  destruct (sched_getaffinity h) as [affinity|]; [|case_bool_decide]; simpl;
    rewrite ?lookup_insert_ne by done;
    try destruct (py_contains _ _); simpl;
    rewrite <- ?app_assoc; done.
Qed.

Lemma force_mla_scheduling_implements h :
  implements (CpuPlatform.force_mla_scheduling h) (Effect.force_mla_scheduling h).
Proof.
  unfold CpuPlatform.force_mla_scheduling, Effect.force_mla_scheduling,
    Effect.mla_enabled.
  run_block.
Qed.

Lemma check_and_update_config_implements h :
  implements (CpuPlatform.check_and_update_config h) (Effect.check_and_update_config h).
Proof.
  unfold CpuPlatform.check_and_update_config, Effect.check_and_update_config.
  repeat apply implements_and_then;
    auto using disable_cascade_attention_implements, resolve_block_size_implements,
      reject_fp8_with_chunked_prefill_implements, remap_fp8_e4m3_implements,
      upgrade_half_dtype_implements, store_kvcache_space_implements,
      resolve_parallel_config_implements, clear_cudagraph_capture_sizes_implements,
      lower_piecewise_compilation_implements, disable_compilation_for_lora_implements,
      assert_cpu_device_implements, set_environment_implements,
      force_mla_scheduling_implements.
Qed.

(** ** Sequencing of effects *)

Lemma and_then_Ok f g c e :
  out_result (f c e) = Ok () →
  out_result (and_then f g c e) = out_result (g (out_cfg (f c e)) (out_environ (f c e)))
  ∧ out_cfg (and_then f g c e) = out_cfg (g (out_cfg (f c e)) (out_environ (f c e)))
  ∧ out_environ (and_then f g c e)
    = out_environ (g (out_cfg (f c e)) (out_environ (f c e)))
  ∧ out_trace (and_then f g c e)
    = out_trace (f c e) ++ out_trace (g (out_cfg (f c e)) (out_environ (f c e))).
Proof. intros H. unfold and_then; simpl. by rewrite H. Qed.

Lemma and_then_Raise f g c e x :
  out_result (f c e) = Raise x →
  out_result (and_then f g c e) = Raise x
  ∧ out_cfg (and_then f g c e) = out_cfg (f c e)
  ∧ out_environ (and_then f g c e) = out_environ (f c e)
  ∧ out_trace (and_then f g c e) = out_trace (f c e).
Proof. intros H. unfold and_then; simpl. by rewrite H. Qed.

Lemma and_then_Ok_inv f g c e :
  out_result (and_then f g c e) = Ok () →
  out_result (f c e) = Ok ()
  ∧ out_result (g (out_cfg (f c e)) (out_environ (f c e))) = Ok ().
Proof.
  unfold and_then; simpl. destruct (out_result (f c e)) as [[]|]; [done|].
  discriminate.
Qed.

(** Case analysis on the check that decides the result in [H]. *)
Ltac scrutinee t :=
  lazymatch t with
  | match ?x with _ => _ end => scrutinee x
  | _ => t
  end.

Ltac split_result H :=
  repeat (lazymatch type of H with
          | match ?x with _ => _ end = _ =>
              let s := scrutinee x in
              destruct s eqn:?; simpl in H |- *; try discriminate H
          end).

Lemma default_block_size_cache_dtype h cc :
  cache_dtype (Effect.default_block_size h cc) = cache_dtype cc.
Proof. unfold Effect.default_block_size. by destruct (block_size cc). Qed.

Lemma default_block_size_enable_prefix_caching h cc :
  enable_prefix_caching (Effect.default_block_size h cc) = enable_prefix_caching cc.
Proof. unfold Effect.default_block_size. by destruct (block_size cc). Qed.

Lemma default_block_size_block_size h cc :
  block_size (Effect.default_block_size h cc)
  = Some (default (if ipex_installed h then 128 else 16) (block_size cc)).
Proof.
  unfold Effect.default_block_size. by destruct (block_size cc) eqn:Hbs.
Qed.

(** The result of the whole sequence, check by check. *)
Lemma check_and_update_config_result h c e cc :
  cache_config c = Some cc →
  out_result (Effect.check_and_update_config h c e) =
    if negb (ipex_installed h)
       && bool_decide (block_size (Effect.default_block_size h cc) ≠ Some 16)
    then Raise (Effect.block_size_error (block_size (Effect.default_block_size h cc)))
    else if (chunked_prefill_enabled (scheduler_config c) || enable_prefix_caching cc)
            && bool_decide (cache_dtype cc ≠ "auto")
    then Raise Effect.fp8_error
    else if negb (bool_decide (device_type (device_config c) = "cpu"))
    then Raise AssertionError
    else if Effect.max_threads h is Some _ then Ok ()
    else Raise (NotImplementedError "Unsupported OS").
Proof.
  destruct c as [mc cc' sc pc kc lc dc]; simpl; intros ->.
  unfold Effect.check_and_update_config; simpl.
  rewrite default_block_size_cache_dtype, default_block_size_enable_prefix_caching.
  destruct (ipex_installed h); simpl; repeat (case_match; simpl; try done).
Qed.

Lemma check_and_update_config_no_cache h c e :
  cache_config c = None →
  ∃ attr, out_result (Effect.check_and_update_config h c e)
          = Raise (AttributeError attr).
Proof.
  destruct c as [mc cc' sc pc kc lc dc]; simpl; intros ->.
  unfold Effect.check_and_update_config; simpl.
  destruct (ipex_installed h); simpl; eauto.
Qed.

Lemma check_and_update_config_Ok_iff h c e :
  out_result (Effect.check_and_update_config h c e) = Ok () ↔
  (∃ cc, cache_config c = Some cc
         ∧ Effect.block_size_accepted h cc ∧ Effect.fp8_accepted c cc)
  ∧ device_type (device_config c) = "cpu"
  ∧ is_Some (Effect.max_threads h).
Proof.
  unfold Effect.block_size_accepted, Effect.fp8_accepted. split.
  - intros H. destruct (cache_config c) as [cc|] eqn:Hcc.
    2: { destruct (check_and_update_config_no_cache h c e Hcc) as [a Ha].
         congruence. }
    rewrite (check_and_update_config_result h c e cc Hcc) in H.
    rewrite default_block_size_block_size in H.
    destruct (negb (ipex_installed h) && _) eqn:Hbs in H; [discriminate|].
    destruct ((chunked_prefill_enabled _ || _) && _) eqn:Hfp8 in H; [discriminate|].
    destruct (negb (bool_decide _)) eqn:Hdev in H; [discriminate|].
    destruct (Effect.max_threads h) as [n|] eqn:Hn; [|discriminate].
    repeat split; [exists cc; repeat split| |done].
    + destruct (ipex_installed h); [by left|right]. simpl in Hbs.
      destruct (block_size cc) as [b|]; [right|by left]. simpl in Hbs.
      apply bool_decide_eq_false in Hbs.
      destruct (decide (Some b = Some 16)); done.
    + intros Hc. rewrite Hc in Hfp8. simpl in Hfp8.
      apply bool_decide_eq_false in Hfp8.
      by destruct (decide (cache_dtype cc = "auto")).
    + apply negb_false_iff, bool_decide_eq_true in Hdev. done.
  - intros ((cc & Hcc & Hbs & Hfp8) & Hdev & [n Hn]).
    rewrite (check_and_update_config_result h c e cc Hcc).
    rewrite default_block_size_block_size, Hn, Hdev.
    replace (negb (ipex_installed h) && _) with false.
    2: { destruct Hbs as [->|[->| ->]]; [done| |]; by destruct (ipex_installed h). }
    destruct (chunked_prefill_enabled (scheduler_config c) || enable_prefix_caching cc);
      [rewrite Hfp8 by done|]; done.
Qed.

Lemma check_and_update_config_Ok_cfg h c e :
  out_result (Effect.check_and_update_config h c e) = Ok () →
  out_cfg (Effect.check_and_update_config h c e) = Effect.final_cfg h e c
  ∧ out_environ (Effect.check_and_update_config h c e) = Effect.final_environ h e c.
Proof.
  intros H. destruct c as [mc cc sc pc kc lc dc].
  unfold Effect.check_and_update_config, Effect.final_cfg, Effect.final_environ in *.
  destruct cc as [cc|];
    [|exfalso; simpl in H; destruct (ipex_installed h); discriminate].
  simpl in *. split_result H; done.
Qed.

(** ** Capability tables *)

(** C5. [supported_dtypes] is a function of the architecture and of
    [sys.platform] alone: POWERPC gives [bfloat16; float32], ARM on a
    platform whose name starts with "darwin" gives [float16; float32], and
    every other combination gives [bfloat16; float16; float32]. *)
Theorem supported_dtypes_table (h : Host) :
  (cpu_architecture h = POWERPC →
     CpuPlatform.supported_dtypes h = [bfloat16; float32])
  ∧ (cpu_architecture h = ARM → String.prefix "darwin" (sys_platform h) = true →
     CpuPlatform.supported_dtypes h = [float16; float32])
  ∧ (cpu_architecture h ≠ POWERPC →
     (cpu_architecture h = ARM → String.prefix "darwin" (sys_platform h) = false) →
     CpuPlatform.supported_dtypes h = [bfloat16; float16; float32])
  ∧ (∀ h', cpu_architecture h' = cpu_architecture h →
           sys_platform h' = sys_platform h →
           CpuPlatform.supported_dtypes h' = CpuPlatform.supported_dtypes h).
Proof.
  unfold CpuPlatform.supported_dtypes. repeat split.
  - intros ->. reflexivity.
  - intros -> ->. reflexivity.
  - intros Hppc Harm. rewrite bool_decide_eq_false_2 by done.
    case_bool_decide as Ha; [rewrite (Harm Ha)|rewrite andb_false_r]; done.
  - intros h' -> ->. reflexivity.
Qed.

Lemma supported_dtypes_table_witness :
  CpuPlatform.supported_dtypes powerpc_host = [bfloat16; float32]
  ∧ CpuPlatform.supported_dtypes darwin_arm_host = [float16; float32]
  ∧ CpuPlatform.supported_dtypes linux_host = [bfloat16; float16; float32].
Proof.
  split; [|split].
  - destruct (supported_dtypes_table powerpc_host) as (Hppc & _).
    apply Hppc. reflexivity.
  - destruct (supported_dtypes_table darwin_arm_host) as (_ & Harm & _).
    apply Harm; reflexivity.
  - destruct (supported_dtypes_table linux_host) as (_ & _ & Hother & _).
    apply Hother; discriminate.
Defined.

(** C4. [get_attn_backend_cls] raises [NotImplementedError] whenever
    [use_mla] is set, whatever the requested backend and [use_v1]; raises
    [ValueError] when [use_mla] is unset and [use_v1] is unset; and in the
    one remaining case returns the Torch SDPA backend, a requested backend
    other than [TORCH_SDPA] being reported at level INFO and otherwise
    ignored. *)
Theorem get_attn_backend_cls_outcomes (selected_backend : option _Backend)
    (head_size : Z) (dt : torch_dtype) (kv_cache_dtype : option string)
    (bs : Z) (w : World) :
  (∀ use_v1,
     (CpuPlatform.get_attn_backend_cls selected_backend head_size dt
        kv_cache_dtype bs use_v1 true w).1
     = Raise (NotImplementedError "MLA is not supported on CPU."))
  ∧ (CpuPlatform.get_attn_backend_cls selected_backend head_size dt
       kv_cache_dtype bs false false w).1
    = Raise (ValueError "CPU backend only supports V1.")
  ∧ (CpuPlatform.get_attn_backend_cls selected_backend head_size dt
       kv_cache_dtype bs true false w).1
    = Ok "vllm.v1.attention.backends.cpu_attn.TorchSDPABackend"
  ∧ (∀ name,
       CpuPlatform.get_attn_backend_cls (Some (OTHER_BACKEND name)) head_size dt
         kv_cache_dtype bs true false w
       = (Ok "vllm.v1.attention.backends.cpu_attn.TorchSDPABackend",
          {| cfg := cfg w; environ := environ w; trace := trace w;
             log := log w
                    ++ [{| log_level := INFO;
                           log_message := "Cannot use _Backend." +:+ name
                                          +:+ " backend on CPU." |};
                        {| log_level := INFO;
                           log_message := "Using Torch SDPA backend." |}] |})).
Proof.
  unfold CpuPlatform.get_attn_backend_cls.
  repeat split; intros; destruct selected_backend as [[|name']|];
    repeat (unfold mbind, M_bind, mret, M_ret, logger, raise; simpl);
    try done.
  all: by rewrite <- app_assoc.
Qed.

(** C10. The outcome of [get_attn_backend_cls] (result, log and state) is
    the same for any two calls that agree on the requested backend,
    [use_v1] and [use_mla], whatever the head sizes, model dtypes, kv-cache
    dtypes and block sizes. *)
Theorem get_attn_backend_cls_ignores_shapes (selected_backend : option _Backend)
    (use_v1 use_mla : bool)
    (head_size1 head_size2 : Z) (dtype1 dtype2 : torch_dtype)
    (kv_cache_dtype1 kv_cache_dtype2 : option string)
    (block_size1 block_size2 : Z) (w : World) :
  CpuPlatform.get_attn_backend_cls selected_backend head_size1 dtype1
    kv_cache_dtype1 block_size1 use_v1 use_mla w
  = CpuPlatform.get_attn_backend_cls selected_backend head_size2 dtype2
      kv_cache_dtype2 block_size2 use_v1 use_mla w.
Proof. reflexivity. Qed.

(** ** Topology discovery *)

(** [_int] hands on whatever integer [int] parses, negative ones included,
    and yields the sentinel only when [int] raises. *)
Lemma _int_parsed value n :
  LogicalCPUInfo.py_int value = Some n → LogicalCPUInfo._int value = n.
Proof. unfold LogicalCPUInfo._int. by intros ->. Qed.

Lemma _int_unparsable value :
  LogicalCPUInfo.py_int value = None → LogicalCPUInfo._int value = -1.
Proof. unfold LogicalCPUInfo._int. by intros ->. Qed.

(** [obj_dict.get(key) is None] fails exactly for a field that is there and
    is not [null]. *)
Lemma get_is_None (obj_dict : gmap string JsonValue) (key : string) :
  LogicalCPUInfo.is_None (LogicalCPUInfo.get obj_dict key) = false
  ↔ has_field obj_dict key.
Proof.
  unfold LogicalCPUInfo.get, has_field.
  destruct (obj_dict !! key) as [[|n|]|]; simpl; split;
    try discriminate; try (by intros (? & [= <-] & ?)); try (by intros (? & ? & ?)).
  - intros _. by exists (JInt n).
  - intros _. by exists JOther.
Qed.

(** The two results of the decoder. *)
Lemma json_decoder_record (obj_dict : gmap string JsonValue) :
  has_fields obj_dict →
  LogicalCPUInfo.json_decoder obj_dict
  = inl {| LogicalCPUInfo.id :=
             LogicalCPUInfo._int (LogicalCPUInfo.get obj_dict "cpu");
           LogicalCPUInfo.physical_core :=
             LogicalCPUInfo._int (LogicalCPUInfo.get obj_dict "core");
           LogicalCPUInfo.numa_node :=
             LogicalCPUInfo._int (LogicalCPUInfo.get obj_dict "node") |}.
Proof.
  intros (Ha & Hb & Hc). apply get_is_None in Ha, Hb, Hc.
  unfold LogicalCPUInfo.json_decoder. cbv zeta. by rewrite Ha, Hb, Hc.
Qed.

Lemma json_decoder_dict (obj_dict : gmap string JsonValue) :
  ¬ has_fields obj_dict →
  LogicalCPUInfo.json_decoder obj_dict = inr obj_dict.
Proof.
  intros Hno. unfold LogicalCPUInfo.json_decoder. cbv zeta.
  destruct (LogicalCPUInfo.is_None (LogicalCPUInfo.get obj_dict "cpu")) eqn:Ha;
    [done|].
  destruct (LogicalCPUInfo.is_None (LogicalCPUInfo.get obj_dict "core")) eqn:Hb;
    [done|].
  destruct (LogicalCPUInfo.is_None (LogicalCPUInfo.get obj_dict "node")) eqn:Hc;
    [done|].
  destruct Hno. by repeat split; apply get_is_None.
Qed.

Lemma json_decoder_inl (obj_dict : gmap string JsonValue) x :
  LogicalCPUInfo.json_decoder obj_dict = inl x → has_fields obj_dict.
Proof.
  destruct (decide (has_fields obj_dict)) as [?|Hno]; [done|].
  by rewrite (json_decoder_dict _ Hno).
Qed.

(** The validity filter returns when every object of the listing was decoded
    to a record, and raises on the first one that was not. *)
Lemma filter_valid_attributes_records (l : list (gmap string JsonValue)) :
  Forall has_fields l →
  CpuPlatform.filter_valid_attributes (LogicalCPUInfo.json_decoder <$> l)
  = Ok (List.filter CpuPlatform.has_valid_attributes (records l)).
Proof.
  induction 1 as [|obj_dict l Hf _ IH]; [done|].
  unfold records in *. rewrite fmap_cons.
  cbn [omap list_omap CpuPlatform.filter_valid_attributes].
  rewrite (json_decoder_record _ Hf), IH. simpl.
  by destruct (CpuPlatform.has_valid_attributes _).
Qed.

Lemma filter_valid_attributes_dict (l : list (gmap string JsonValue)) :
  ¬ Forall has_fields l →
  CpuPlatform.filter_valid_attributes (LogicalCPUInfo.json_decoder <$> l)
  = Raise (AttributeError "id").
Proof.
  induction l as [|obj_dict l IH]; intros Hno; [by destruct Hno|].
  rewrite fmap_cons. cbn [CpuPlatform.filter_valid_attributes].
  destruct (decide (has_fields obj_dict)) as [Hf|Hf].
  - rewrite (json_decoder_record _ Hf), IH; [done|].
    intros Hl. apply Hno. by constructor.
  - by rewrite (json_decoder_dict _ Hf).
Qed.

Lemma has_valid_attributes_iff (x : LogicalCPUInfo.t) :
  CpuPlatform.has_valid_attributes x = true ↔
  LogicalCPUInfo.id x ≠ -1
  ∧ LogicalCPUInfo.physical_core x ≠ -1
  ∧ LogicalCPUInfo.numa_node x ≠ -1.
Proof.
  unfold CpuPlatform.has_valid_attributes. rewrite bool_decide_eq_true.
  rewrite !not_elem_of_cons. split.
  - intros (? & ? & ? & _). repeat split; congruence.
  - intros (? & ? & ?). repeat split; try congruence. apply not_elem_of_nil.
Qed.

Lemma numa_nodes_of_cpus (l : list LogicalCPUInfo.t) (s : gset Z) (n : Z) :
  n ∈ foldl (λ s x, s ∪ {[LogicalCPUInfo.numa_node x]}) s l
  ↔ n ∈ s ∨ ∃ x, x ∈ l ∧ LogicalCPUInfo.numa_node x = n.
Proof.
  revert s. induction l as [|y l IH]; intros s; simpl.
  - split; [by left|]. intros [?|(x & Hx & _)]; [done|]. by apply elem_of_nil in Hx.
  - rewrite IH, elem_of_union, elem_of_singleton. split.
    + intros [[? | ->] | (x & Hx & Hn)]; [by left| |].
      * right. exists y. split; [apply list_elem_of_here|done].
      * right. exists x. split; [by apply list_elem_of_further|done].
    + intros [?|(x & Hx & Hn)]; [by left; left|].
      apply elem_of_cons in Hx as [-> | Hx]; [left; right; done|].
      right. by exists x.
Qed.


(** The two filters of discovery, as one. *)
Lemma filter_allowed (mask : gset Z) (l : list LogicalCPUInfo.t) :
  List.filter (λ x, bool_decide (LogicalCPUInfo.id x ∈ mask))
    (List.filter CpuPlatform.has_valid_attributes l)
  = filter (λ x, LogicalCPUInfo.id x ≠ -1
                 ∧ LogicalCPUInfo.physical_core x ≠ -1
                 ∧ LogicalCPUInfo.numa_node x ≠ -1
                 ∧ LogicalCPUInfo.id x ∈ mask) l.
Proof.
  induction l as [|x l IH]; [done|]. rewrite filter_cons. simpl.
  destruct (CpuPlatform.has_valid_attributes x) eqn:Hv; simpl.
  - apply has_valid_attributes_iff in Hv as (? & ? & ?). case_bool_decide as Hm.
    + rewrite decide_True by done. by f_equal.
    + rewrite decide_False by (by intros (? & ? & ? & ?)). done.
  - rewrite decide_False; [done|]. intros (? & ? & ? & ?).
    assert (CpuPlatform.has_valid_attributes x = true) as Hv'
      by by apply has_valid_attributes_iff.
    congruence.
Qed.

(** Discovery on Linux with an affinity mask: the result when every object
    was decoded, and the exception when one was not. *)
Lemma get_allowed_cpu_memory_node_list_Ok h mask :
  platform_system h = "Linux" →
  sched_getaffinity h = Some mask →
  Forall has_fields (lscpu_cpus h) →
  CpuPlatform.get_allowed_cpu_memory_node_list h
  = Ok (merge_sort Z.le
          (elements (foldl (λ (s : gset Z) x,
                              s ∪ {[LogicalCPUInfo.numa_node x]}) ∅
                       (filter (allowed mask) (records (lscpu_cpus h))))),
        filter (allowed mask) (records (lscpu_cpus h))).
Proof.
  intros Hl Hm Hf. unfold CpuPlatform.get_allowed_cpu_memory_node_list.
  rewrite Hl, Hm. simpl. rewrite (filter_valid_attributes_records _ Hf).
  by rewrite filter_allowed.
Qed.

Lemma get_allowed_cpu_memory_node_list_Raise h :
  platform_system h = "Linux" →
  ¬ Forall has_fields (lscpu_cpus h) →
  CpuPlatform.get_allowed_cpu_memory_node_list h = Raise (AttributeError "id").
Proof.
  intros Hl Hf. unfold CpuPlatform.get_allowed_cpu_memory_node_list.
  rewrite Hl. simpl. by rewrite (filter_valid_attributes_dict _ Hf).
Qed.



(** The mocked machine of the specification: CPUs {0,1,2,3}, affinity
    {0,2}. *)
Example get_allowed_cpu_memory_node_list_linux_host :
  CpuPlatform.get_allowed_cpu_memory_node_list linux_host
  = Ok ([0; 1], [cpu_info 0 0 1; cpu_info 2 1 0]).
Proof. vm_compute. reflexivity. Qed.

(** An object whose node is [null] is not skipped: discovery stops. *)
Example get_allowed_cpu_memory_node_list_missing_node :
  CpuPlatform.get_allowed_cpu_memory_node_list missing_node_host
  = Raise (AttributeError "id").
Proof. vm_compute. reflexivity. Qed.


(** ** Configuration resolution *)

(** Case analysis on the checks that decide where the sequence stops. *)
Ltac split_checks :=
  repeat match goal with
         | |- context [match ?x with _ => _ end] =>
             lazymatch type of x with
             | Result _ => let s := scrutinee x in destruct s eqn:?; simpl
             end
         end.

Lemma check_and_update_config_block_size h c e cc :
  cache_config c = Some cc →
  block_size <$> cache_config (out_cfg (Effect.check_and_update_config h c e))
  = Some (block_size (Effect.default_block_size h cc)).
Proof.
  destruct c as [mc cc' sc pc kc lc dc]; simpl; intros ->.
  unfold Effect.check_and_update_config; simpl.
  split_checks; unfold Effect.remapped_cache_dtype; repeat case_match; done.
Qed.

Lemma remapped_default_cache_dtype h cc :
  cache_dtype (Effect.remapped_cache_dtype (Effect.default_block_size h cc))
  = cache_dtype (Effect.remapped_cache_dtype cc).
Proof.
  unfold Effect.remapped_cache_dtype. rewrite default_block_size_cache_dtype.
  case_bool_decide; simpl; [done|apply default_block_size_cache_dtype].
Qed.

Lemma check_and_update_config_cache_dtype h c e cc :
  cache_config c = Some cc →
  cache_dtype <$> cache_config (out_cfg (Effect.check_and_update_config h c e))
  = Some (match out_result (Effect.check_and_update_config h c e) with
          | Raise (RuntimeError _) => cache_dtype cc
          | _ => cache_dtype (Effect.remapped_cache_dtype cc)
          end).
Proof.
  destruct c as [mc cc' sc pc kc lc dc]; simpl; intros ->.
  unfold Effect.check_and_update_config; simpl.
  split_checks;
    rewrite ?remapped_default_cache_dtype, ?default_block_size_cache_dtype; done.
Qed.

(** C3. With the block size unset, resolution leaves it at 128 when the
    accelerated extension is installed and at 16 otherwise (whether or not a
    later rule raises); with the block size set to a value other than 16 and
    the extension absent, resolution raises the block-size [RuntimeError]. *)
Theorem block_size_resolution (h : Host) (w : World) (cc : CacheConfig) :
  cache_config (cfg w) = Some cc →
  (block_size cc = None →
     block_size <$> cache_config (cfg (CpuPlatform.check_and_update_config h w).2)
     = Some (Some (if ipex_installed h then 128 else 16)))
  ∧ (∀ b, block_size cc = Some b → b ≠ 16 → ipex_installed h = false →
       (CpuPlatform.check_and_update_config h w).1
       = Raise (RuntimeError ("--block-size=" +:+ pretty b
                              +:+ " requires intel_extension_for_pytorch"))).
Proof.
  intros Hcc.
  destruct (check_and_update_config_implements h w) as (Hr & Hc & _ & _).
  split.
  - intros Hnone. rewrite Hc.
    rewrite (check_and_update_config_block_size h _ _ cc Hcc).
    by rewrite default_block_size_block_size, Hnone.
  - intros b Hb Hne Hipex. rewrite Hr.
    rewrite (check_and_update_config_result h _ _ cc Hcc).
    rewrite default_block_size_block_size, Hb, Hipex. simpl.
    rewrite bool_decide_eq_true_2 by congruence. done.
Qed.

Lemma block_size_resolution_witness :
  block_size <$> cache_config
    (cfg (CpuPlatform.check_and_update_config linux_host (start plain_config ∅)).2)
  = Some (Some 16)
  ∧ (CpuPlatform.check_and_update_config linux_host
       (start block_size_32_config ∅)).1
    = Raise (RuntimeError "--block-size=32 requires intel_extension_for_pytorch").
Proof.
  split.
  - destruct (block_size_resolution linux_host (start plain_config ∅) plain_cache
                eq_refl) as [Hunset _].
    apply Hunset. reflexivity.
  - destruct (block_size_resolution linux_host (start block_size_32_config ∅)
                block_size_32_cache eq_refl) as [_ Hset].
    apply (Hset 32); [reflexivity|discriminate|reflexivity].
Defined.

(** C1 (as the code has it). For a configuration whose cache dtype is
    [fp8_e4m3] and which passes the block-size rule: when chunked prefill or
    prefix caching is enabled, resolution raises the FP8-incompatibility
    [RuntimeError] and leaves the dtype as it was; when both are disabled,
    the dtype is rewritten to [fp8_e5m2] and resolution either returns or
    stops on the device assertion or on the unsupported-OS error of the
    environment block, never on the dtype. *)
Theorem fp8_e4m3_is_remapped (h : Host) (w : World) (cc : CacheConfig) :
  cache_config (cfg w) = Some cc →
  cache_dtype cc = "fp8_e4m3" →
  ipex_installed h = true ∨ block_size cc = None ∨ block_size cc = Some 16 →
  if chunked_prefill_enabled (scheduler_config (cfg w)) || enable_prefix_caching cc
  then
    (CpuPlatform.check_and_update_config h w).1
    = Raise (RuntimeError ("Chunked-prefill and prefix-cache on the CPU "
                           +:+ "backend is not compatible with FP8 KV cache."))
    ∧ cache_dtype <$> cache_config (cfg (CpuPlatform.check_and_update_config h w).2)
      = Some "fp8_e4m3"
  else
    cache_dtype <$> cache_config (cfg (CpuPlatform.check_and_update_config h w).2)
    = Some "fp8_e5m2"
    ∧ ((CpuPlatform.check_and_update_config h w).1 = Ok ()
       ∨ (CpuPlatform.check_and_update_config h w).1 = Raise AssertionError
       ∨ (CpuPlatform.check_and_update_config h w).1
         = Raise (NotImplementedError "Unsupported OS")).
Proof.
  intros Hcc Hdt Hbs.
  destruct (check_and_update_config_implements h w) as (Hr & Hc & _ & _).
  rewrite Hr, Hc, (check_and_update_config_cache_dtype h _ _ cc Hcc).
  rewrite (check_and_update_config_result h _ _ cc Hcc).
  rewrite default_block_size_block_size.
  replace (negb (ipex_installed h) && _) with false.
  2: { destruct Hbs as [->|[->| ->]]; [done| |]; by destruct (ipex_installed h). }
  unfold Effect.remapped_cache_dtype. rewrite Hdt. simpl.
  destruct (chunked_prefill_enabled _ || _); simpl; [done|].
  destruct (bool_decide (device_type _ = "cpu")); simpl; [|by auto].
  destruct (Effect.max_threads h); by auto.
Qed.

Lemma fp8_e4m3_is_remapped_witness :
  cache_dtype <$> cache_config
    (cfg (CpuPlatform.check_and_update_config linux_host
            (start fp8_e4m3_config ∅)).2)
  = Some "fp8_e5m2"
  ∧ ((CpuPlatform.check_and_update_config linux_host (start fp8_e4m3_config ∅)).1
     = Ok ()
     ∨ (CpuPlatform.check_and_update_config linux_host (start fp8_e4m3_config ∅)).1
       = Raise AssertionError
     ∨ (CpuPlatform.check_and_update_config linux_host (start fp8_e4m3_config ∅)).1
       = Raise (NotImplementedError "Unsupported OS")).
Proof.
  apply (fp8_e4m3_is_remapped linux_host (start fp8_e4m3_config ∅) fp8_e4m3_cache);
    [reflexivity|reflexivity|right; right; reflexivity].
Defined.

(** C1, counterexample: with chunked prefill enabled, a configuration whose
    cache dtype is [fp8_e4m3] is rejected on account of that dtype, and the
    dtype is not rewritten. *)
Lemma fp8_e4m3_with_chunked_prefill_is_rejected :
  (CpuPlatform.check_and_update_config linux_host
     (start fp8_e4m3_chunked_config ∅)).1
  = Raise (RuntimeError ("Chunked-prefill and prefix-cache on the CPU "
                         +:+ "backend is not compatible with FP8 KV cache."))
  ∧ cache_dtype <$> cache_config
      (cfg (CpuPlatform.check_and_update_config linux_host
              (start fp8_e4m3_chunked_config ∅)).2)
    = Some "fp8_e4m3".
Proof. split; vm_compute; reflexivity. Qed.

(** *** The configuration after a run that returns *)

Lemma final_cfg_model_config h e c :
  model_config (Effect.final_cfg h e c)
  = (λ m, match cache_config c with
          | Some cc =>
              Effect.upgraded_dtype
                (cache_dtype (Effect.remapped_cache_dtype cc))
                (set_disable_cascade_attn true m)
          | None => set_disable_cascade_attn true m
          end) <$> model_config c.
Proof.
  destruct c as [[m|] [cc|] sc pc kc lc dc]; unfold Effect.final_cfg; simpl;
    rewrite ?remapped_default_cache_dtype; done.
Qed.

Lemma final_cfg_cache_config h e c :
  cache_config (Effect.final_cfg h e c)
  = (λ cc, set_cpu_kvcache_space_bytes (Some (Effect.device_total_memory h))
             (Effect.remapped_cache_dtype (Effect.default_block_size h cc)))
    <$> cache_config c.
Proof. destruct c as [mc [cc|] sc pc kc lc dc]; done. Qed.

Lemma final_cfg_scheduler_config h e c :
  scheduler_config (Effect.final_cfg h e c)
  = if Effect.mla_enabled c then
      {| enable_chunked_prefill := false;
         chunked_prefill_enabled := false;
         max_num_batched_tokens :=
           Z.max (max_model_len (scheduler_config c))
                 (DEFAULT_MAX_NUM_BATCHED_TOKENS h);
         max_model_len := max_model_len (scheduler_config c) |}
    else scheduler_config c.
Proof.
  destruct c as [[m|] [cc|] sc pc kc lc dc]; unfold Effect.final_cfg; simpl;
    unfold Effect.mla_enabled, Effect.upgraded_dtype; simpl; try done;
    destruct (_ && _); simpl; done.
Qed.

Lemma final_cfg_parallel_config h e c :
  parallel_config (Effect.final_cfg h e c)
  = Effect.resolved_parallel_config (parallel_config c).
Proof. by destruct c. Qed.

Lemma final_cfg_compilation_config h e c :
  compilation_config (Effect.final_cfg h e c)
  = (λ k, if lora_config c is Some _ then set_level NO_COMPILATION k else k)
      (Effect.lowered_compilation_config e
         (set_cudagraph_capture_sizes (Some []) (compilation_config c))).
Proof. by destruct c. Qed.

Lemma final_cfg_lora_config h e c :
  lora_config (Effect.final_cfg h e c) = lora_config c.
Proof. by destruct c. Qed.

Lemma final_cfg_device_config h e c :
  device_config (Effect.final_cfg h e c) = device_config c.
Proof. by destruct c. Qed.

(** What a returning run tells about its final state. *)
Lemma check_and_update_config_returns h w w' :
  CpuPlatform.check_and_update_config h w = (Ok (), w') →
  out_result (Effect.check_and_update_config h (cfg w) (environ w)) = Ok ()
  ∧ cfg w' = Effect.final_cfg h (environ w) (cfg w)
  ∧ environ w' = Effect.final_environ h (environ w) (cfg w).
Proof.
  intros Hrun.
  destruct (check_and_update_config_implements h w) as (Hr & Hc & He & _).
  rewrite Hrun in Hr, Hc, He.
  change (Ok () = out_result (Effect.check_and_update_config h (cfg w) (environ w)))
    in Hr.
  change (cfg w' = out_cfg (Effect.check_and_update_config h (cfg w) (environ w)))
    in Hc.
  change (environ w'
          = out_environ (Effect.check_and_update_config h (cfg w) (environ w)))
    in He.
  destruct (check_and_update_config_Ok_cfg h (cfg w) (environ w)) as [Hc' He'];
    [done|].
  rewrite Hc, He. done.
Qed.

(** C2 (as the code has it). When the model configuration has [use_mla]
    set and resolution returns, both chunked-prefill flags of the scheduler
    are off and [max_num_batched_tokens] is exactly the larger of
    [max_model_len] and [DEFAULT_MAX_NUM_BATCHED_TOKENS], whatever its
    previous value. *)
Theorem mla_forces_scheduling (h : Host) (w w' : World) (m : ModelConfig) :
  model_config (cfg w) = Some m →
  use_mla m = true →
  CpuPlatform.check_and_update_config h w = (Ok (), w') →
  enable_chunked_prefill (scheduler_config (cfg w')) = false
  ∧ chunked_prefill_enabled (scheduler_config (cfg w')) = false
  ∧ max_num_batched_tokens (scheduler_config (cfg w'))
    = Z.max (max_model_len (scheduler_config (cfg w)))
            (DEFAULT_MAX_NUM_BATCHED_TOKENS h)
  ∧ max_model_len (scheduler_config (cfg w'))
    = max_model_len (scheduler_config (cfg w)).
Proof.
  intros Hm Hmla Hrun.
  destruct (check_and_update_config_returns h w w' Hrun) as (_ & -> & _).
  rewrite final_cfg_scheduler_config. unfold Effect.mla_enabled.
  by rewrite Hm, Hmla.
Qed.

Lemma mla_forces_scheduling_witness :
  enable_chunked_prefill
    (scheduler_config
       (cfg (CpuPlatform.check_and_update_config linux_host (start mla_config ∅)).2))
  = false
  ∧ chunked_prefill_enabled
      (scheduler_config
         (cfg (CpuPlatform.check_and_update_config linux_host (start mla_config ∅)).2))
    = false
  ∧ max_num_batched_tokens
      (scheduler_config
         (cfg (CpuPlatform.check_and_update_config linux_host (start mla_config ∅)).2))
    = Z.max (max_model_len (scheduler_config (cfg (start mla_config ∅))))
            (DEFAULT_MAX_NUM_BATCHED_TOKENS linux_host)
  ∧ max_model_len
      (scheduler_config
         (cfg (CpuPlatform.check_and_update_config linux_host (start mla_config ∅)).2))
    = max_model_len (scheduler_config (cfg (start mla_config ∅))).
Proof.
  apply (mla_forces_scheduling linux_host (start mla_config ∅) _ mla_model);
    [reflexivity|reflexivity|].
  rewrite (surjective_pairing
             (CpuPlatform.check_and_update_config linux_host (start mla_config ∅)))
    at 1.
  f_equal.
Defined.

(** C2, counterexample: for an MLA model resolution returns with prefix
    caching still enabled and with [max_num_batched_tokens] lowered from
    100000 to 4096. *)
Lemma mla_keeps_prefix_caching_and_lowers_budget :
  (CpuPlatform.check_and_update_config linux_host (start mla_config ∅)).1 = Ok ()
  ∧ enable_prefix_caching <$> cache_config
      (cfg (CpuPlatform.check_and_update_config linux_host (start mla_config ∅)).2)
    = Some true
  ∧ max_num_batched_tokens (scheduler_config mla_config) = 100000
  ∧ max_num_batched_tokens
      (scheduler_config
         (cfg (CpuPlatform.check_and_update_config linux_host (start mla_config ∅)).2))
    = 4096.
Proof. repeat split; vm_compute; reflexivity. Qed.

(** C9 (as the code has it). When the level is PIECEWISE and resolution
    returns: the level is DYNAMO_ONCE, unless a LoRA configuration is
    present, in which case the later LoRA rule leaves NO_COMPILATION; the
    backend is "eager" exactly when VLLM_CPU_CI_ENV is set to something other
    than "0", and "inductor" otherwise; [custom_ops] is ["none"] exactly when
    the attribute [use_inductor] of the compilation configuration is set,
    whichever backend was selected, and is unchanged otherwise; the four
    inductor options are overridden. *)
Theorem piecewise_is_lowered (h : Host) (w w' : World) :
  level (compilation_config (cfg w)) = PIECEWISE →
  CpuPlatform.check_and_update_config h w = (Ok (), w') →
  level (compilation_config (cfg w'))
  = (if lora_config (cfg w) is Some _ then NO_COMPILATION else DYNAMO_ONCE)
  ∧ backend (compilation_config (cfg w'))
    = (if bool_decide (default "0" (environ w !! "VLLM_CPU_CI_ENV") ≠ "0")
       then "eager" else "inductor")
  ∧ custom_ops (compilation_config (cfg w'))
    = (if use_inductor (compilation_config (cfg w)) then ["none"]
       else custom_ops (compilation_config (cfg w)))
  ∧ inductor_compile_config (compilation_config (cfg w'))
    = CpuPlatform.inductor_overrides
      ∪ inductor_compile_config (compilation_config (cfg w)).
Proof.
  intros Hlevel Hrun.
  destruct (check_and_update_config_returns h w w' Hrun) as (_ & -> & _).
  rewrite final_cfg_compilation_config.
  unfold Effect.lowered_compilation_config. simpl. rewrite Hlevel. simpl.
  by destruct (lora_config (cfg w)).
Qed.

Lemma piecewise_is_lowered_witness :
  level (compilation_config
    (cfg (CpuPlatform.check_and_update_config linux_host (start plain_config ∅)).2))
  = (if lora_config (cfg (start plain_config ∅)) is Some _
     then NO_COMPILATION else DYNAMO_ONCE)
  ∧ backend (compilation_config
      (cfg (CpuPlatform.check_and_update_config linux_host (start plain_config ∅)).2))
    = (if bool_decide
            (default "0" (environ (start plain_config ∅) !! "VLLM_CPU_CI_ENV") ≠ "0")
       then "eager" else "inductor")
  ∧ custom_ops (compilation_config
      (cfg (CpuPlatform.check_and_update_config linux_host (start plain_config ∅)).2))
    = (if use_inductor (compilation_config (cfg (start plain_config ∅)))
       then ["none"]
       else custom_ops (compilation_config (cfg (start plain_config ∅))))
  ∧ inductor_compile_config (compilation_config
      (cfg (CpuPlatform.check_and_update_config linux_host (start plain_config ∅)).2))
    = CpuPlatform.inductor_overrides
      ∪ inductor_compile_config (compilation_config (cfg (start plain_config ∅))).
Proof.
  apply (piecewise_is_lowered linux_host (start plain_config ∅)); [reflexivity|].
  rewrite (surjective_pairing
             (CpuPlatform.check_and_update_config linux_host (start plain_config ∅)))
    at 1.
  f_equal.
Defined.

(** C9, counterexample: with LoRA adapters the level that resolution leaves
    is NO_COMPILATION, not DYNAMO_ONCE; and in the CI environment the backend
    selected is "eager" while [custom_ops] is still restricted to ["none"]. *)
Lemma piecewise_with_lora_or_ci_env :
  ((CpuPlatform.check_and_update_config linux_host (start lora_config_example ∅)).1
   = Ok ()
   ∧ level (compilation_config lora_config_example) = PIECEWISE
   ∧ level (compilation_config
       (cfg (CpuPlatform.check_and_update_config linux_host
               (start lora_config_example ∅)).2))
     = NO_COMPILATION)
  ∧ ((CpuPlatform.check_and_update_config linux_host (start plain_config ci_environ)).1
     = Ok ()
     ∧ level (compilation_config plain_config) = PIECEWISE
     ∧ custom_ops (compilation_config plain_config) = []
     ∧ backend (compilation_config
         (cfg (CpuPlatform.check_and_update_config linux_host
                 (start plain_config ci_environ)).2))
       = "eager"
     ∧ custom_ops (compilation_config
         (cfg (CpuPlatform.check_and_update_config linux_host
                 (start plain_config ci_environ)).2))
       = ["none"]).
Proof. repeat split; vm_compute; reflexivity. Qed.

(** *** Order of the writes *)

Lemma phased_cfg_prefix tm t1 t :
  Forall is_cfg_write t1 → phased tm t → phased tm (t1 ++ t).
Proof.
  intros H1 (tc & te & -> & Hc & He). exists (t1 ++ tc), te.
  split; [by rewrite <- app_assoc|]. split; [by apply Forall_app|done].
Qed.

Lemma phased_cfg_cons tm x t :
  is_cfg_write x → phased tm t → phased tm (x :: t).
Proof. intros Hx. apply (phased_cfg_prefix tm [x]). by constructor. Qed.

Lemma phased_cfg_only t : Forall is_cfg_write t → phased [] t.
Proof.
  intros Hc. exists t, []. rewrite !app_nil_r. repeat split; [done|constructor].
Qed.

Lemma phased_of_env_phase tm t : env_phase tm t → phased tm t.
Proof. intros (te & -> & He). exists [], te. repeat split; [constructor|done]. Qed.

Lemma env_phase_cons tm x t :
  is_env_write x → env_phase tm t → env_phase tm (x :: t).
Proof.
  intros Hx (te & -> & He). exists (x :: te). split; [done|by constructor].
Qed.

Lemma env_phase_app tm te : Forall is_env_write te → env_phase tm (te ++ tm).
Proof. intros He. by exists te. Qed.

Lemma env_phase_only te : Forall is_env_write te → env_phase [] te.
Proof. intros He. exists te. by rewrite app_nil_r. Qed.

Lemma env_writes_are_env_writes (l : list (string * string)) :
  Forall is_env_write ((λ kv, EnvWrite kv.1 kv.2) <$> l).
Proof. apply Forall_fmap, Forall_forall. by intros [k v] _. Qed.

Ltac solve_cfg_trace :=
  repeat match goal with
         | |- Forall _ (_ ++ _) => apply Forall_app; split
         | |- Forall _ (if ?b then _ else _) => destruct b
         | |- Forall _ (match ?x with _ => _ end) => destruct x
         | |- Forall _ [] => constructor
         | |- Forall _ (_ :: _) => constructor; [exact I|]
         end.

Ltac solve_phased :=
  repeat first
    [ apply phased_cfg_cons; [exact I|]
    | apply phased_cfg_prefix; [solve [solve_cfg_trace]|] ];
  first
    [ apply phased_cfg_only; solve [solve_cfg_trace]
    | apply phased_of_env_phase;
      repeat (apply env_phase_cons; [exact I|]);
      first [ apply env_phase_app; apply env_writes_are_env_writes
            | apply env_phase_only; solve [repeat constructor] ] ].

Lemma use_mla_upgraded_dtype kv m :
  use_mla (Effect.upgraded_dtype kv (set_disable_cascade_attn true m)) = use_mla m.
Proof. unfold Effect.upgraded_dtype. by destruct (_ && _). Qed.

Lemma check_and_update_config_trace h c e :
  phased (match out_result (Effect.check_and_update_config h c e) with
          | Ok _ => if Effect.mla_enabled c then mla_writes else []
          | Raise _ => []
          end)
         (out_trace (Effect.check_and_update_config h c e)).
Proof.
  destruct c as [mc [cc|] sc pc kc lc dc];
    unfold Effect.check_and_update_config; simpl; split_checks.
  all: try (destruct mc as [m|]; simpl; unfold Effect.mla_enabled; simpl;
            rewrite ?use_mla_upgraded_dtype).
  all: solve_phased.
Qed.

(** C8 (as the code has it). The writes of a run come in three phases:
    first configuration writes only, then environment writes only, and then,
    when the run returns and the model configuration has [use_mla] set, the
    three scheduler assignments of the MLA block; without MLA no
    configuration field is written after the first environment write. *)
Theorem writes_are_phased (h : Host) (w : World) :
  ∃ tc te,
    trace (CpuPlatform.check_and_update_config h w).2
    = trace w ++ tc ++ te
      ++ match (CpuPlatform.check_and_update_config h w).1, model_config (cfg w) with
         | Ok _, Some m => if use_mla m then mla_writes else []
         | _, _ => []
         end
    ∧ Forall is_cfg_write tc
    ∧ Forall is_env_write te.
Proof.
  destruct (check_and_update_config_implements h w) as (Hr & _ & _ & Ht).
  destruct (check_and_update_config_trace h (cfg w) (environ w))
    as (tc & te & Htr & Hc & He).
  exists tc, te. rewrite Ht, Htr, Hr. split; [|done].
  do 3 f_equal. unfold Effect.mla_enabled.
  destruct (out_result _); [|done]. by destruct (model_config (cfg w)).
Qed.

(** C8, counterexample: for an MLA model the three scheduler fields are
    assigned after every environment variable has been written. *)
Lemma mla_writes_follow_environment_writes :
  trace (CpuPlatform.check_and_update_config linux_host (start mla_config ∅)).2
  = [CfgWrite model_config__disable_cascade_attn;
     CfgWrite cache_config__block_size;
     CfgWrite cache_config__cpu_kvcache_space_bytes;
     CfgWrite parallel_config__worker_cls;
     CfgWrite compilation_config__cudagraph_capture_sizes;
     CfgWrite compilation_config__level;
     CfgWrite compilation_config__backend;
     CfgWrite compilation_config__inductor_compile_config;
     CfgWrite compilation_config__custom_ops;
     EnvWrite "VLLM_WORKER_MULTIPROC_METHOD" "spawn";
     EnvWrite "NUMEXPR_MAX_THREADS" "2";
     EnvWrite "OMP_NUM_THREADS" "4";
     EnvWrite "TORCHINDUCTOR_COMPILE_THREADS" "1";
     EnvWrite "LOCAL_WORLD_SIZE" "1";
     CfgWrite scheduler_config__enable_chunked_prefill;
     CfgWrite scheduler_config__chunked_prefill_enabled;
     CfgWrite scheduler_config__max_num_batched_tokens].
Proof. vm_compute. reflexivity. Qed.

(** *** Running resolution again *)

Lemma VllmConfig_eq (c1 c2 : VllmConfig) :
  model_config c1 = model_config c2 →
  cache_config c1 = cache_config c2 →
  scheduler_config c1 = scheduler_config c2 →
  parallel_config c1 = parallel_config c2 →
  compilation_config c1 = compilation_config c2 →
  lora_config c1 = lora_config c2 →
  device_config c1 = device_config c2 →
  c1 = c2.
Proof. destruct c1, c2; simpl; congruence. Qed.

Lemma remapped_cache_dtype_idemp cc :
  cache_dtype (Effect.remapped_cache_dtype cc) ≠ "fp8_e4m3".
Proof. unfold Effect.remapped_cache_dtype. by case_bool_decide. Qed.

Lemma resolved_cache_config_idemp h cc :
  let cc' := set_cpu_kvcache_space_bytes (Some (Effect.device_total_memory h))
               (Effect.remapped_cache_dtype (Effect.default_block_size h cc)) in
  set_cpu_kvcache_space_bytes (Some (Effect.device_total_memory h))
    (Effect.remapped_cache_dtype (Effect.default_block_size h cc')) = cc'.
Proof.
  destruct cc as [bs epc dt kv].
  unfold Effect.remapped_cache_dtype, Effect.default_block_size; simpl.
  destruct bs; simpl; case_bool_decide; simpl; try done;
    case_bool_decide; simpl; done.
Qed.

Lemma resolved_cache_config_dtype h cc :
  cache_dtype (set_cpu_kvcache_space_bytes (Some (Effect.device_total_memory h))
                 (Effect.remapped_cache_dtype (Effect.default_block_size h cc)))
  = cache_dtype (Effect.remapped_cache_dtype cc).
Proof. simpl. apply remapped_default_cache_dtype. Qed.

Lemma remapped_cache_dtype_twice cc cc' :
  cache_dtype cc' = cache_dtype (Effect.remapped_cache_dtype cc) →
  cache_dtype (Effect.remapped_cache_dtype cc') = cache_dtype cc'.
Proof.
  intros Hdt. unfold Effect.remapped_cache_dtype at 1.
  rewrite bool_decide_eq_false_2; [done|].
  rewrite Hdt. apply remapped_cache_dtype_idemp.
Qed.

Lemma upgraded_dtype_idemp kv m :
  Effect.upgraded_dtype kv
    (set_disable_cascade_attn true
       (Effect.upgraded_dtype kv (set_disable_cascade_attn true m)))
  = Effect.upgraded_dtype kv (set_disable_cascade_attn true m).
Proof.
  destruct m as [dca dt mla]. unfold Effect.upgraded_dtype; simpl.
  destruct (bool_decide (kv ≠ "auto")); simpl; [|done].
  destruct (bool_decide_reflect (dt = half)) as [Hhalf|Hhalf]; simpl.
  - done.
  - by rewrite bool_decide_eq_false_2.
Qed.

Lemma resolved_parallel_config_idemp p :
  Effect.resolved_parallel_config (Effect.resolved_parallel_config p)
  = Effect.resolved_parallel_config p.
Proof.
  destruct p as [ws tp [ex|] wc];
    unfold Effect.resolved_parallel_config, Effect.falls_back_to_mp; simpl.
  - destruct (bool_decide (ws > 1)); simpl;
      repeat (case_bool_decide; simplify_eq /=; try done).
  - repeat (case_bool_decide; simplify_eq /=; try done).
Qed.

Lemma resolved_compilation_config_idemp e e' (lora : option LoRAConfig) k :
  let k' := (λ k, if lora is Some _ then set_level NO_COMPILATION k else k)
              (Effect.lowered_compilation_config e
                 (set_cudagraph_capture_sizes (Some []) k)) in
  (λ k, if lora is Some _ then set_level NO_COMPILATION k else k)
    (Effect.lowered_compilation_config e'
       (set_cudagraph_capture_sizes (Some []) k')) = k'.
Proof.
  destruct k as [lv be ui co cg ic]. unfold Effect.lowered_compilation_config.
  simpl. destruct lora; simpl; case_bool_decide; simplify_eq /=; try done;
    case_bool_decide; simplify_eq /=; done.
Qed.

Lemma final_cfg_mla_enabled h e c :
  Effect.mla_enabled (Effect.final_cfg h e c) = Effect.mla_enabled c.
Proof.
  unfold Effect.mla_enabled. rewrite final_cfg_model_config.
  destruct (model_config c) as [m|]; simpl; [|done].
  destruct (cache_config c); [apply use_mla_upgraded_dtype|done].
Qed.

Lemma final_cfg_idemp h e e' c :
  is_Some (cache_config c) →
  Effect.final_cfg h e' (Effect.final_cfg h e c) = Effect.final_cfg h e c.
Proof.
  intros [cc Hcc]. apply VllmConfig_eq.
  - rewrite (final_cfg_model_config h e' _), final_cfg_cache_config.
    rewrite final_cfg_model_config, Hcc. simpl.
    destruct (model_config c) as [m|]; simpl; [|done]. f_equal.
    rewrite (remapped_cache_dtype_twice cc) by apply resolved_cache_config_dtype.
    rewrite resolved_cache_config_dtype. apply upgraded_dtype_idemp.
  - rewrite (final_cfg_cache_config h e' _), final_cfg_cache_config, Hcc. simpl.
    f_equal. apply resolved_cache_config_idemp.
  - rewrite (final_cfg_scheduler_config h e' _), final_cfg_mla_enabled.
    rewrite final_cfg_scheduler_config. by destruct (Effect.mla_enabled c).
  - rewrite (final_cfg_parallel_config h e' _), final_cfg_parallel_config.
    apply resolved_parallel_config_idemp.
  - rewrite (final_cfg_compilation_config h e' _), final_cfg_lora_config.
    rewrite final_cfg_compilation_config.
    apply resolved_compilation_config_idemp.
  - by rewrite !final_cfg_lora_config.
  - by rewrite !final_cfg_device_config.
Qed.

Lemma insert_all_absorb (l : list (string * string)) k v (m : gmap string string) :
  <[k:=v]> (foldl (λ env kv, <[kv.1:=kv.2]> env) (<[k:=v]> m) l)
  = <[k:=v]> (foldl (λ env kv, <[kv.1:=kv.2]> env) m l).
Proof.
  revert m. induction l as [|[k' v'] l IH]; intros m; simpl.
  - by rewrite insert_insert_eq.
  - destruct (decide (k = k')) as [->|Hne].
    + by rewrite insert_insert_eq.
    + rewrite (insert_insert_ne m k' k) by done. apply IH.
Qed.

(** Writing the same variables again changes nothing. *)
Lemma insert_all_idemp (l : list (string * string)) (m : gmap string string) :
  foldl (λ env kv, <[kv.1:=kv.2]> env)
    (foldl (λ env kv, <[kv.1:=kv.2]> env) m l) l
  = foldl (λ env kv, <[kv.1:=kv.2]> env) m l.
Proof.
  induction l as [|[k v] l IH] using rev_ind; [done|].
  rewrite !foldl_app. simpl. rewrite insert_all_absorb. by rewrite IH.
Qed.

Lemma insert_all_lookup_ne (l : list (string * string)) k (m : gmap string string) :
  Forall (λ kv, kv.1 ≠ k) l →
  foldl (λ env kv, <[kv.1:=kv.2]> env) m l !! k = m !! k.
Proof.
  revert m. induction l as [|[k' v'] l IH]; intros m Hl; simpl; [done|].
  apply Forall_cons in Hl as [Hk Hl]. rewrite IH by done.
  by apply lookup_insert_ne.
Qed.

Lemma environment_writes_spare_LD_PRELOAD h c e :
  Forall (λ kv, kv.1 ≠ "LD_PRELOAD") (Effect.environment_writes h c e).
Proof.
  unfold Effect.environment_writes.
  destruct (Effect.max_threads h); [destruct (Effect.iomp_preloaded e)|];
    simpl; repeat constructor; done.
Qed.

Lemma final_environ_idemp h e c c' :
  tensor_parallel_size (parallel_config c')
  = tensor_parallel_size (parallel_config c) →
  Effect.final_environ h (Effect.final_environ h e c) c'
  = Effect.final_environ h e c.
Proof.
  intros Htp. unfold Effect.final_environ, Effect.set_environment.
  cbn [out_environ].
  assert (Effect.environment_writes h c'
            (foldl (λ env kv, <[kv.1:=kv.2]> env) e (Effect.environment_writes h c e))
          = Effect.environment_writes h c e) as ->.
  { unfold Effect.environment_writes at 1 3, Effect.iomp_preloaded.
    rewrite insert_all_lookup_ne by apply environment_writes_spare_LD_PRELOAD.
    by rewrite Htp. }
  apply insert_all_idemp.
Qed.

Lemma remapped_cache_dtype_block_size cc :
  block_size (Effect.remapped_cache_dtype cc) = block_size cc.
Proof. unfold Effect.remapped_cache_dtype. by case_bool_decide. Qed.

Lemma remapped_cache_dtype_enable_prefix_caching cc :
  enable_prefix_caching (Effect.remapped_cache_dtype cc) = enable_prefix_caching cc.
Proof. unfold Effect.remapped_cache_dtype. by case_bool_decide. Qed.

Lemma final_cfg_block_size_accepted h cc :
  Effect.block_size_accepted h cc →
  Effect.block_size_accepted h
    (set_cpu_kvcache_space_bytes (Some (Effect.device_total_memory h))
       (Effect.remapped_cache_dtype (Effect.default_block_size h cc))).
Proof.
  unfold Effect.block_size_accepted. simpl.
  rewrite remapped_cache_dtype_block_size, default_block_size_block_size.
  destruct (ipex_installed h); [by left|].
  intros [?|[-> | ->]]; [done|by right; right..].
Qed.

Lemma final_cfg_fp8_accepted h e c cc :
  cache_config c = Some cc →
  Effect.fp8_accepted c cc →
  Effect.fp8_accepted (Effect.final_cfg h e c)
    (set_cpu_kvcache_space_bytes (Some (Effect.device_total_memory h))
       (Effect.remapped_cache_dtype (Effect.default_block_size h cc))).
Proof.
  unfold Effect.fp8_accepted. intros Hcc Hfp8.
  rewrite final_cfg_scheduler_config, resolved_cache_config_dtype. simpl.
  rewrite remapped_cache_dtype_enable_prefix_caching,
    default_block_size_enable_prefix_caching.
  intros Hon.
  assert (cache_dtype cc = "auto") as Hauto.
  { apply Hfp8. destruct (Effect.mla_enabled c); simpl in Hon; [|done].
    rewrite Hon. apply orb_true_r. }
  unfold Effect.remapped_cache_dtype. rewrite Hauto. done.
Qed.

(** C7. When resolution returns, running it again on the state it left
    (same host, the environment as the first run left it) returns as well
    and changes neither a configuration field nor an environment variable. *)
Theorem check_and_update_config_idempotent (h : Host) (w w' : World) :
  CpuPlatform.check_and_update_config h w = (Ok (), w') →
  ∃ w'', CpuPlatform.check_and_update_config h w' = (Ok (), w'')
         ∧ cfg w'' = cfg w'
         ∧ environ w'' = environ w'.
Proof.
  intros Hrun.
  destruct (check_and_update_config_returns h w w' Hrun) as (Hok & Hc & He).
  apply check_and_update_config_Ok_iff in Hok
    as ((cc & Hcc & Hbs & Hfp8) & Hdev & Hthreads).
  assert (out_result (Effect.check_and_update_config h (cfg w') (environ w'))
          = Ok ()) as Hok'.
  { apply check_and_update_config_Ok_iff. rewrite Hc. split; [|split; [|done]].
    - rewrite final_cfg_cache_config, Hcc. simpl. eexists. split; [done|].
      split; [by apply final_cfg_block_size_accepted
             |by apply final_cfg_fp8_accepted].
    - by rewrite final_cfg_device_config. }
  destruct (check_and_update_config_implements h w') as (Hr' & _).
  rewrite Hok' in Hr'.
  destruct (CpuPlatform.check_and_update_config h w') as [r w''] eqn:Hrun'.
  simpl in Hr'. subst r. exists w''. split; [done|].
  destruct (check_and_update_config_returns h w' w'' Hrun') as (_ & -> & ->).
  rewrite Hc, He. split.
  - apply final_cfg_idemp. by rewrite Hcc.
  - apply final_environ_idemp. by rewrite final_cfg_parallel_config.
Qed.

Lemma check_and_update_config_idempotent_witness :
  ∃ w'', CpuPlatform.check_and_update_config linux_host
           (CpuPlatform.check_and_update_config linux_host (start mla_config ∅)).2
         = (Ok (), w'')
         ∧ cfg w''
           = cfg (CpuPlatform.check_and_update_config linux_host
                    (start mla_config ∅)).2
         ∧ environ w''
           = environ (CpuPlatform.check_and_update_config linux_host
                        (start mla_config ∅)).2.
Proof.
  apply (check_and_update_config_idempotent linux_host (start mla_config ∅)).
  rewrite (surjective_pairing
             (CpuPlatform.check_and_update_config linux_host (start mla_config ∅)))
    at 1.
  f_equal.
Defined.

(** ** Further properties of configuration resolution *)

Lemma max_threads_is_Some h :
  is_Some (Effect.max_threads h)
  ↔ is_Some (sched_getaffinity h) ∨ platform_system h = "Darwin".
Proof.
  unfold Effect.max_threads. destruct (sched_getaffinity h) as [s|].
  - split; [by left; eexists|by eexists].
  - case_bool_decide as Hd.
    + split; [by right|by eexists].
    + split; [by intros [? ?]|]. intros [[? ?]|?]; done.
Qed.

Lemma lowered_compilation_config_use_inductor e k :
  use_inductor (Effect.lowered_compilation_config e k) = use_inductor k.
Proof. unfold Effect.lowered_compilation_config. by case_bool_decide. Qed.

Lemma upgraded_dtype_use_mla kv m :
  use_mla (Effect.upgraded_dtype kv m) = use_mla m.
Proof. unfold Effect.upgraded_dtype. by destruct (_ && _). Qed.

Lemma mla_enabled_frame c c' :
  use_mla <$> model_config c' = use_mla <$> model_config c →
  Effect.mla_enabled c' = Effect.mla_enabled c.
Proof.
  unfold Effect.mla_enabled.
  destruct (model_config c), (model_config c'); simpl; congruence.
Qed.

Lemma frame_refl c : frame c c.
Proof. by repeat split. Qed.

Lemma frame_trans c1 c2 c3 : frame c1 c2 → frame c2 c3 → frame c1 c3.
Proof.
  intros (H1 & H2 & H3 & H4 & H5 & H6 & H7 & H8 & H9)
         (G1 & G2 & G3 & G4 & G5 & G6 & G7 & G8 & G9).
  repeat split; try congruence.
  intros Hm. rewrite G9, H9; [done..|].
  by rewrite (mla_enabled_frame c1 c2).
Qed.

Lemma frame_and_then f g :
  (∀ c e, frame c (out_cfg (f c e))) →
  (∀ c e, frame c (out_cfg (g c e))) →
  ∀ c e, frame c (out_cfg (and_then f g c e)).
Proof.
  intros Hf Hg c e. unfold and_then; simpl.
  destruct (out_result (f c e)); [|apply Hf].
  eapply frame_trans; [apply Hf|apply Hg].
Qed.

Ltac solve_frame :=
  intros [[m|] [cc|] sc pc kc lc dc] e; unfold frame, Effect.mla_enabled; simpl;
  rewrite ?upgraded_dtype_use_mla, ?remapped_cache_dtype_enable_prefix_caching,
    ?default_block_size_enable_prefix_caching,
    ?lowered_compilation_config_use_inductor;
  repeat split; try done.

(** What the sequence leaves untouched, whatever its result. *)
Lemma check_and_update_config_frame h c e :
  frame c (out_cfg (Effect.check_and_update_config h c e)).
Proof.
  revert c e. unfold Effect.check_and_update_config.
  repeat apply frame_and_then; try solve [solve_frame].
  - solve_frame; by destruct lc.
  - solve_frame; unfold Effect.mla_enabled; simpl;
      try (by destruct (use_mla m)); by intros ->.
Qed.

(** The state a run leaves, in terms of the effect of the sequence. *)
Lemma check_and_update_config_run h w :
  (CpuPlatform.check_and_update_config h w).1
  = out_result (Effect.check_and_update_config h (cfg w) (environ w))
  ∧ cfg (CpuPlatform.check_and_update_config h w).2
    = out_cfg (Effect.check_and_update_config h (cfg w) (environ w))
  ∧ environ (CpuPlatform.check_and_update_config h w).2
    = out_environ (Effect.check_and_update_config h (cfg w) (environ w)).
Proof.
  destruct (check_and_update_config_implements h w) as (Hr & Hc & He & _). done.
Qed.

(** *** Where the environment stands when the sequence stops *)


Lemma environ_on_raise_and_then f g :
  (∀ c e, out_environ (f c e) = e
          ∧ ∀ msg, out_result (f c e) ≠ Raise (NotImplementedError msg)) →
  (∀ c e, environ_on_raise e (g c e)) →
  ∀ c e, environ_on_raise e (and_then f g c e).
Proof.
  intros Hf Hg c e. destruct (Hf c e) as [He Hn].
  unfold environ_on_raise, and_then; simpl.
  destruct (out_result (f c e)) as [[]|x] eqn:Hr.
  - specialize (Hg (out_cfg (f c e)) (out_environ (f c e))).
    unfold environ_on_raise in Hg. by rewrite He in Hg |- *.
  - destruct x; try done. by destruct (Hn msg).
Qed.

Ltac solve_quiet :=
  intros [mc [cc|] sc pc kc lc dc] e; simpl; (split; [done|]); intros msg;
  try done; repeat (case_match; try done).

Lemma check_and_update_config_environ_on_raise h c e :
  environ_on_raise e (Effect.check_and_update_config h c e).
Proof.
  revert c e. unfold Effect.check_and_update_config.
  do 11 (apply environ_on_raise_and_then; [solve [solve_quiet]|]).
  intros c e. unfold environ_on_raise, and_then, Effect.set_environment.
  cbn [out_result out_environ Effect.force_mla_scheduling].
  unfold Effect.environment_writes.
  destruct (Effect.max_threads h); [done|]. cbn [foldl fst snd]. done.
Qed.

Lemma environment_writes_names h c e :
  Forall (λ kv, kv.1 ∈ written_variables) (Effect.environment_writes h c e).
Proof.
  unfold Effect.environment_writes, written_variables.
  destruct (Effect.max_threads h); [destruct (Effect.iomp_preloaded e)|];
    simpl; repeat constructor; simpl; set_solver.
Qed.

Lemma final_environ_other_variables h e c k :
  k ∉ written_variables →
  Effect.final_environ h e c !! k = e !! k.
Proof.
  intros Hk. unfold Effect.final_environ, Effect.set_environment.
  cbn [out_environ]. apply insert_all_lookup_ne.
  eapply Forall_impl; [apply environment_writes_names|].
  intros kv Hin Heq. simpl in *. congruence.
Qed.

(** X1. A variable outside the ten names the environment block assigns keeps
    its value (or its absence), whatever the result of the run. *)
Theorem other_variables_are_untouched (h : Host) (w : World) (name : string) :
  name ∉ written_variables →
  environ (CpuPlatform.check_and_update_config h w).2 !! name
  = environ w !! name.
Proof.
  intros Hk.
  destruct (check_and_update_config_run h w) as (_ & _ & ->).
  pose proof (check_and_update_config_environ_on_raise h (cfg w) (environ w))
    as Hraise.
  unfold environ_on_raise in Hraise.
  destruct (out_result _) as [[]|x] eqn:Hr.
  - destruct (check_and_update_config_Ok_cfg h (cfg w) (environ w) Hr) as [_ ->].
    by apply final_environ_other_variables.
  - destruct x; rewrite Hraise; try done.
    apply lookup_insert_ne. intros <-. apply Hk. set_solver.
Qed.

Lemma other_variables_are_untouched_witness :
  environ (CpuPlatform.check_and_update_config linux_host
             (start plain_config ci_environ)).2 !! "VLLM_CPU_CI_ENV"
  = environ (start plain_config ci_environ) !! "VLLM_CPU_CI_ENV".
Proof.
  apply (other_variables_are_untouched linux_host (start plain_config ci_environ)).
  apply (bool_decide_unpack _). vm_compute. exact I.
Defined.

(** X2. When an exception stops the run, [os.environ] is as it was, except
    for the unsupported-OS error of [get_max_threads], which is raised after
    VLLM_WORKER_MULTIPROC_METHOD has been set. *)
Theorem environ_when_rejected (h : Host) (w : World) (exc : PyExc) :
  (CpuPlatform.check_and_update_config h w).1 = Raise exc →
  environ (CpuPlatform.check_and_update_config h w).2
  = if exc is NotImplementedError _
    then <["VLLM_WORKER_MULTIPROC_METHOD" := "spawn"]> (environ w)
    else environ w.
Proof.
  destruct (check_and_update_config_run h w) as (-> & _ & ->).
  pose proof (check_and_update_config_environ_on_raise h (cfg w) (environ w))
    as Hraise.
  unfold environ_on_raise in Hraise. intros Hr. rewrite Hr in Hraise.
  by destruct exc.
Qed.

Lemma environ_when_rejected_witness :
  environ (CpuPlatform.check_and_update_config linux_host
             (start fp8_e5m2_chunked_config ci_environ)).2
  = if Effect.fp8_error is NotImplementedError _
    then <["VLLM_WORKER_MULTIPROC_METHOD" := "spawn"]>
           (environ (start fp8_e5m2_chunked_config ci_environ))
    else environ (start fp8_e5m2_chunked_config ci_environ).
Proof.
  apply (environ_when_rejected linux_host
           (start fp8_e5m2_chunked_config ci_environ) Effect.fp8_error).
  vm_compute. reflexivity.
Defined.

(** X3. The run returns exactly when the configuration has a cache
    configuration, the block size is unset or 16 or the extension is
    installed, the cache dtype is "auto" whenever chunked prefill or prefix
    caching is on, the device type is "cpu", and [get_max_threads] is
    available on the host. *)
Theorem run_returns_iff (h : Host) (w : World) :
  (CpuPlatform.check_and_update_config h w).1 = Ok () ↔
  (∃ cc, cache_config (cfg w) = Some cc
         ∧ (ipex_installed h = true ∨ block_size cc = None
            ∨ block_size cc = Some 16)
         ∧ (chunked_prefill_enabled (scheduler_config (cfg w))
            || enable_prefix_caching cc = true → cache_dtype cc = "auto"))
  ∧ device_type (device_config (cfg w)) = "cpu"
  ∧ (is_Some (sched_getaffinity h) ∨ platform_system h = "Darwin").
Proof.
  destruct (check_and_update_config_run h w) as (-> & _).
  rewrite check_and_update_config_Ok_iff, max_threads_is_Some. done.
Qed.

(** X4. Without a cache configuration the run always stops on an
    [AttributeError]. *)
Theorem missing_cache_config_raises (h : Host) (w : World) :
  cache_config (cfg w) = None →
  ∃ attr, (CpuPlatform.check_and_update_config h w).1 = Raise (AttributeError attr).
Proof.
  intros Hcc. destruct (check_and_update_config_run h w) as (-> & _).
  by apply check_and_update_config_no_cache.
Qed.

Lemma missing_cache_config_raises_witness :
  ∃ attr, (CpuPlatform.check_and_update_config linux_host (start no_cache_config ∅)).1
          = Raise (AttributeError attr).
Proof.
  apply (missing_cache_config_raises linux_host (start no_cache_config ∅)).
  reflexivity.
Defined.

Lemma scheduler_on_raise_and_then f g :
  (∀ c e, scheduler_config (out_cfg (f c e)) = scheduler_config c) →
  (∀ c e x, out_result (g c e) = Raise x →
            scheduler_config (out_cfg (g c e)) = scheduler_config c) →
  ∀ c e x, out_result (and_then f g c e) = Raise x →
           scheduler_config (out_cfg (and_then f g c e)) = scheduler_config c.
Proof.
  intros Hf Hg c e x. unfold and_then; simpl.
  destruct (out_result (f c e)) as [[]|y]; [|by rewrite Hf].
  intros Hr. by rewrite (Hg _ _ x Hr), Hf.
Qed.

Lemma check_and_update_config_scheduler_on_raise h c e x :
  out_result (Effect.check_and_update_config h c e) = Raise x →
  scheduler_config (out_cfg (Effect.check_and_update_config h c e))
  = scheduler_config c.
Proof.
  revert c e x. unfold Effect.check_and_update_config.
  do 12 (apply scheduler_on_raise_and_then; [by intros []|]).
  intros c e x. simpl. discriminate.
Qed.

(** X5. The scheduler configuration is assigned only by a run that returns:
    when an exception stops the run, it is as it was. *)
Theorem scheduler_config_when_rejected (h : Host) (w : World) (exc : PyExc) :
  (CpuPlatform.check_and_update_config h w).1 = Raise exc →
  scheduler_config (cfg (CpuPlatform.check_and_update_config h w).2)
  = scheduler_config (cfg w).
Proof.
  destruct (check_and_update_config_run h w) as (-> & -> & _).
  apply check_and_update_config_scheduler_on_raise.
Qed.

Lemma scheduler_config_when_rejected_witness :
  scheduler_config
    (cfg (CpuPlatform.check_and_update_config windows_host (start mla_config ∅)).2)
  = scheduler_config (cfg (start mla_config ∅)).
Proof.
  apply (scheduler_config_when_rejected windows_host (start mla_config ∅)
           (NotImplementedError "Unsupported OS")).
  vm_compute. reflexivity.
Defined.

(** X6. Any cache dtype other than "auto" (the already supported "fp8_e5m2"
    included) is rejected with the FP8 [RuntimeError] when chunked prefill or
    prefix caching is on and the block-size rule has passed; the cache dtype
    and [os.environ] are then as before. *)
Theorem eight_bit_cache_with_chunked_prefill_is_rejected
    (h : Host) (w : World) (cc : CacheConfig) :
  cache_config (cfg w) = Some cc →
  ipex_installed h = true ∨ block_size cc = None ∨ block_size cc = Some 16 →
  chunked_prefill_enabled (scheduler_config (cfg w)) || enable_prefix_caching cc
  = true →
  cache_dtype cc ≠ "auto" →
  (CpuPlatform.check_and_update_config h w).1
  = Raise (RuntimeError ("Chunked-prefill and prefix-cache on the CPU "
                         +:+ "backend is not compatible with FP8 KV cache."))
  ∧ cache_dtype <$> cache_config (cfg (CpuPlatform.check_and_update_config h w).2)
    = Some (cache_dtype cc)
  ∧ environ (CpuPlatform.check_and_update_config h w).2 = environ w.
Proof.
  intros Hcc Hbs Hon Hdt.
  destruct (check_and_update_config_run h w) as (Hr & Hc & He).
  assert (out_result (Effect.check_and_update_config h (cfg w) (environ w))
          = Raise Effect.fp8_error) as Hraise.
  { rewrite (check_and_update_config_result h _ _ cc Hcc).
    rewrite default_block_size_block_size.
    replace (negb (ipex_installed h) && _) with false.
    2: { destruct Hbs as [->|[->| ->]]; [done| |]; by destruct (ipex_installed h). }
    rewrite Hon. simpl. by rewrite bool_decide_eq_true_2. }
  rewrite Hr, Hc, He. split; [done|]. split.
  - rewrite (check_and_update_config_cache_dtype h _ _ cc Hcc), Hraise. done.
  - pose proof (check_and_update_config_environ_on_raise h (cfg w) (environ w))
      as Hrz.
    unfold environ_on_raise in Hrz. by rewrite Hraise in Hrz.
Qed.

Lemma eight_bit_cache_with_chunked_prefill_is_rejected_witness :
  (CpuPlatform.check_and_update_config linux_host
     (start fp8_e5m2_chunked_config ∅)).1
  = Raise (RuntimeError ("Chunked-prefill and prefix-cache on the CPU "
                         +:+ "backend is not compatible with FP8 KV cache."))
  ∧ cache_dtype <$> cache_config
      (cfg (CpuPlatform.check_and_update_config linux_host
              (start fp8_e5m2_chunked_config ∅)).2)
    = Some (cache_dtype fp8_e5m2_cache)
  ∧ environ (CpuPlatform.check_and_update_config linux_host
               (start fp8_e5m2_chunked_config ∅)).2
    = environ (start fp8_e5m2_chunked_config ∅).
Proof.
  apply (eight_bit_cache_with_chunked_prefill_is_rejected linux_host
           (start fp8_e5m2_chunked_config ∅) fp8_e5m2_cache);
    [reflexivity|right; right; reflexivity|reflexivity|discriminate].
Defined.

(** X7. On a host without [os.sched_getaffinity] that is not a Darwin
    system, a configuration that passes every check still makes the run stop,
    on the [NotImplementedError] of [get_max_threads], after
    VLLM_WORKER_MULTIPROC_METHOD, and nothing else, has been set. *)
Theorem unsupported_os_raises (h : Host) (w : World) (cc : CacheConfig) :
  sched_getaffinity h = None →
  platform_system h ≠ "Darwin" →
  cache_config (cfg w) = Some cc →
  ipex_installed h = true ∨ block_size cc = None ∨ block_size cc = Some 16 →
  (chunked_prefill_enabled (scheduler_config (cfg w)) || enable_prefix_caching cc
   = true → cache_dtype cc = "auto") →
  device_type (device_config (cfg w)) = "cpu" →
  (CpuPlatform.check_and_update_config h w).1
  = Raise (NotImplementedError "Unsupported OS")
  ∧ environ (CpuPlatform.check_and_update_config h w).2
    = <["VLLM_WORKER_MULTIPROC_METHOD" := "spawn"]> (environ w).
Proof.
  intros Haff Hsys Hcc Hbs Hfp8 Hdev.
  destruct (check_and_update_config_run h w) as (Hr & _ & He).
  assert (out_result (Effect.check_and_update_config h (cfg w) (environ w))
          = Raise (NotImplementedError "Unsupported OS")) as Hraise.
  { rewrite (check_and_update_config_result h _ _ cc Hcc).
    rewrite default_block_size_block_size, Hdev.
    replace (negb (ipex_installed h) && _) with false.
    2: { destruct Hbs as [->|[->| ->]]; [done| |]; by destruct (ipex_installed h). }
    replace (_ && bool_decide (cache_dtype cc ≠ "auto")) with false.
    2: { destruct (_ || _); [by rewrite Hfp8|done]. }
    simpl. unfold Effect.max_threads. rewrite Haff.
    by rewrite bool_decide_eq_false_2. }
  rewrite Hr, He. split; [done|].
  pose proof (check_and_update_config_environ_on_raise h (cfg w) (environ w))
    as Hrz.
  unfold environ_on_raise in Hrz. by rewrite Hraise in Hrz.
Qed.

Lemma unsupported_os_raises_witness :
  (CpuPlatform.check_and_update_config windows_host (start plain_config ∅)).1
  = Raise (NotImplementedError "Unsupported OS")
  ∧ environ (CpuPlatform.check_and_update_config windows_host
               (start plain_config ∅)).2
    = <["VLLM_WORKER_MULTIPROC_METHOD" := "spawn"]> (environ (start plain_config ∅)).
Proof.
  apply (unsupported_os_raises windows_host (start plain_config ∅) plain_cache);
    [reflexivity|discriminate|reflexivity|right; left; reflexivity
    |discriminate|reflexivity].
Defined.

(** X8. Whatever the result of the run, it never assigns the LoRA and device
    configurations, [use_mla], [enable_prefix_caching], [max_model_len],
    [world_size], [tensor_parallel_size] or [use_inductor]; and when the
    model has no MLA it never assigns the scheduler configuration. *)
Theorem fields_never_assigned (h : Host) (w : World) :
  let c := cfg w in
  let c' := cfg (CpuPlatform.check_and_update_config h w).2 in
  lora_config c' = lora_config c
  ∧ device_config c' = device_config c
  ∧ use_mla <$> model_config c' = use_mla <$> model_config c
  ∧ enable_prefix_caching <$> cache_config c'
    = enable_prefix_caching <$> cache_config c
  ∧ max_model_len (scheduler_config c') = max_model_len (scheduler_config c)
  ∧ world_size (parallel_config c') = world_size (parallel_config c)
  ∧ tensor_parallel_size (parallel_config c')
    = tensor_parallel_size (parallel_config c)
  ∧ use_inductor (compilation_config c') = use_inductor (compilation_config c)
  ∧ (match model_config c with Some m => use_mla m | None => false end = false →
     scheduler_config c' = scheduler_config c).
Proof.
  simpl. destruct (check_and_update_config_run h w) as (_ & -> & _).
  apply check_and_update_config_frame.
Qed.

Lemma fields_never_assigned_witness :
  let c := cfg (start ray_fp8_config ∅) in
  let c' := cfg (CpuPlatform.check_and_update_config linux_host
                   (start ray_fp8_config ∅)).2 in
  lora_config c' = lora_config c
  ∧ device_config c' = device_config c
  ∧ use_mla <$> model_config c' = use_mla <$> model_config c
  ∧ enable_prefix_caching <$> cache_config c'
    = enable_prefix_caching <$> cache_config c
  ∧ max_model_len (scheduler_config c') = max_model_len (scheduler_config c)
  ∧ world_size (parallel_config c') = world_size (parallel_config c)
  ∧ tensor_parallel_size (parallel_config c')
    = tensor_parallel_size (parallel_config c)
  ∧ use_inductor (compilation_config c') = use_inductor (compilation_config c)
  ∧ scheduler_config c' = scheduler_config c.
Proof.
  destruct (fields_never_assigned linux_host (start ray_fp8_config ∅))
    as (H1 & H2 & H3 & H4 & H5 & H6 & H7 & H8 & H9).
  exact (conj H1 (conj H2 (conj H3 (conj H4 (conj H5 (conj H6 (conj H7
           (conj H8 (H9 eq_refl))))))))).
Defined.

(** X9. A run ends in one of six ways: it returns, or it raises the
    block-size [RuntimeError], the FP8 [RuntimeError], [AssertionError], the
    unsupported-OS [NotImplementedError], or an [AttributeError] (the latter
    only without cache configuration). *)
Theorem check_and_update_config_outcomes (h : Host) (w : World) :
  let r := (CpuPlatform.check_and_update_config h w).1 in
  r = Ok ()
  ∨ (∃ bs, r = Raise (RuntimeError ("--block-size=" +:+ py_str bs
                                    +:+ " requires intel_extension_for_pytorch")))
  ∨ r = Raise (RuntimeError ("Chunked-prefill and prefix-cache on the CPU "
                             +:+ "backend is not compatible with FP8 KV cache."))
  ∨ r = Raise AssertionError
  ∨ r = Raise (NotImplementedError "Unsupported OS")
  ∨ (cache_config (cfg w) = None ∧ ∃ attr, r = Raise (AttributeError attr)).
Proof.
  simpl. destruct (check_and_update_config_run h w) as (-> & _).
  destruct (cache_config (cfg w)) as [cc|] eqn:Hcc.
  - rewrite (check_and_update_config_result h _ _ cc Hcc).
    destruct (_ && _); [right; left; by eexists|].
    destruct (_ && _); [right; right; left; reflexivity|].
    destruct (negb _); [right; right; right; left; reflexivity|].
    destruct (Effect.max_threads h); [by left|].
    right; right; right; right; left; reflexivity.
  - do 5 right. split; [done|]. by apply check_and_update_config_no_cache.
Qed.

(** X10. A configuration for a device other than "cpu" that passes the
    earlier checks stops the run on [AssertionError]: [os.environ] is as
    before, while the configuration rules before the assertion have already
    been applied (the cache dtype "fp8_e4m3", for one, has been rewritten). *)
Theorem other_device_is_an_assertion_error (h : Host) (w : World) (cc : CacheConfig) :
  cache_config (cfg w) = Some cc →
  ipex_installed h = true ∨ block_size cc = None ∨ block_size cc = Some 16 →
  (chunked_prefill_enabled (scheduler_config (cfg w)) || enable_prefix_caching cc
   = true → cache_dtype cc = "auto") →
  device_type (device_config (cfg w)) ≠ "cpu" →
  (CpuPlatform.check_and_update_config h w).1 = Raise AssertionError
  ∧ environ (CpuPlatform.check_and_update_config h w).2 = environ w
  ∧ cache_dtype <$> cache_config (cfg (CpuPlatform.check_and_update_config h w).2)
    = Some (if bool_decide (cache_dtype cc = "fp8_e4m3") then "fp8_e5m2"
            else cache_dtype cc).
Proof.
  intros Hcc Hbs Hfp8 Hdev.
  destruct (check_and_update_config_run h w) as (Hr & Hc & He).
  assert (out_result (Effect.check_and_update_config h (cfg w) (environ w))
          = Raise AssertionError) as Hraise.
  { rewrite (check_and_update_config_result h _ _ cc Hcc).
    rewrite default_block_size_block_size.
    replace (negb (ipex_installed h) && _) with false.
    2: { destruct Hbs as [->|[->| ->]]; [done| |]; by destruct (ipex_installed h). }
    replace (_ && bool_decide (cache_dtype cc ≠ "auto")) with false.
    2: { destruct (_ || _); [by rewrite Hfp8|done]. }
    by rewrite bool_decide_eq_false_2. }
  rewrite Hr, Hc, He. split; [done|]. split.
  - pose proof (check_and_update_config_environ_on_raise h (cfg w) (environ w))
      as Hrz.
    unfold environ_on_raise in Hrz. by rewrite Hraise in Hrz.
  - rewrite (check_and_update_config_cache_dtype h _ _ cc Hcc), Hraise.
    unfold Effect.remapped_cache_dtype. by case_bool_decide.
Qed.

Lemma other_device_is_an_assertion_error_witness :
  (CpuPlatform.check_and_update_config linux_host (start cuda_device_config ∅)).1
  = Raise AssertionError
  ∧ environ (CpuPlatform.check_and_update_config linux_host
               (start cuda_device_config ∅)).2
    = environ (start cuda_device_config ∅)
  ∧ cache_dtype <$> cache_config
      (cfg (CpuPlatform.check_and_update_config linux_host
              (start cuda_device_config ∅)).2)
    = Some (if bool_decide (cache_dtype fp8_e4m3_cache = "fp8_e4m3")
            then "fp8_e5m2" else cache_dtype fp8_e4m3_cache).
Proof.
  apply (other_device_is_an_assertion_error linux_host
           (start cuda_device_config ∅) fp8_e4m3_cache);
    [reflexivity|right; right; reflexivity|discriminate|discriminate].
Defined.

(** *** The configuration a returning run leaves *)

Lemma check_and_update_config_pair h w :
  (CpuPlatform.check_and_update_config h w).1 = Ok () →
  CpuPlatform.check_and_update_config h w
  = (Ok (), (CpuPlatform.check_and_update_config h w).2).
Proof.
  destruct (CpuPlatform.check_and_update_config h w) as [r w']. simpl.
  by intros ->.
Qed.

(** X11. After a run that returns, the cache configuration has a block size
    (the one given, else 128 with the extension and 16 without; always 16
    without the extension), its dtype is the one given with "fp8_e4m3"
    replaced by "fp8_e5m2", and it is "auto" whenever chunked prefill or
    prefix caching is still on. *)
Theorem cache_config_after_return (h : Host) (w w' : World) :
  CpuPlatform.check_and_update_config h w = (Ok (), w') →
  ∃ cc cc',
    cache_config (cfg w) = Some cc
    ∧ cache_config (cfg w') = Some cc'
    ∧ block_size cc'
      = Some (default (if ipex_installed h then 128 else 16) (block_size cc))
    ∧ (ipex_installed h = false → block_size cc' = Some 16)
    ∧ cache_dtype cc'
      = (if bool_decide (cache_dtype cc = "fp8_e4m3") then "fp8_e5m2"
         else cache_dtype cc)
    ∧ cache_dtype cc' ≠ "fp8_e4m3"
    ∧ (chunked_prefill_enabled (scheduler_config (cfg w'))
       || enable_prefix_caching cc' = true → cache_dtype cc' = "auto").
Proof.
  intros Hrun.
  destruct (check_and_update_config_returns h w w' Hrun) as (Hok & Hc & _).
  apply check_and_update_config_Ok_iff in Hok
    as ((cc & Hcc & Hbs & Hfp8) & _ & _).
  exists cc. eexists. split; [done|].
  split; [by rewrite Hc, final_cfg_cache_config, Hcc|].
  assert (cache_dtype (Effect.remapped_cache_dtype cc)
          = if bool_decide (cache_dtype cc = "fp8_e4m3") then "fp8_e5m2"
            else cache_dtype cc) as Hremap.
  { unfold Effect.remapped_cache_dtype. by case_bool_decide. }
  rewrite resolved_cache_config_dtype. simpl.
  rewrite remapped_cache_dtype_block_size, default_block_size_block_size.
  split; [done|]. split.
  { intros Hi. unfold Effect.block_size_accepted in Hbs. rewrite Hi in Hbs |- *.
    by destruct Hbs as [?|[-> | ->]]. }
  split; [done|]. split; [apply remapped_cache_dtype_idemp|].
  rewrite Hc. apply (final_cfg_fp8_accepted h (environ w) (cfg w) cc Hcc) in Hfp8.
  unfold Effect.fp8_accepted in Hfp8. rewrite resolved_cache_config_dtype in Hfp8.
  exact Hfp8.
Qed.

Lemma cache_config_after_return_witness :
  ∃ cc cc',
    cache_config (cfg (start ray_fp8_config ∅)) = Some cc
    ∧ cache_config
        (cfg (CpuPlatform.check_and_update_config linux_host
                (start ray_fp8_config ∅)).2) = Some cc'
    ∧ block_size cc'
      = Some (default (if ipex_installed linux_host then 128 else 16)
                (block_size cc))
    ∧ (ipex_installed linux_host = false → block_size cc' = Some 16)
    ∧ cache_dtype cc'
      = (if bool_decide (cache_dtype cc = "fp8_e4m3") then "fp8_e5m2"
         else cache_dtype cc)
    ∧ cache_dtype cc' ≠ "fp8_e4m3"
    ∧ (chunked_prefill_enabled
         (scheduler_config
            (cfg (CpuPlatform.check_and_update_config linux_host
                    (start ray_fp8_config ∅)).2))
       || enable_prefix_caching cc' = true → cache_dtype cc' = "auto").
Proof.
  apply (cache_config_after_return linux_host (start ray_fp8_config ∅)).
  apply check_and_update_config_pair. vm_compute. reflexivity.
Defined.

(** X12. After a run that returns, [cpu_kvcache_space_bytes] holds what
    [get_device_total_memory] returns on that host: VLLM_CPU_KVCACHE_SPACE
    gibibytes, 4 when the variable is unset (an explicit 0 stays 0). *)
Theorem kvcache_space_after_return (h : Host) (w w' w0 : World) :
  CpuPlatform.check_and_update_config h w = (Ok (), w') →
  ∃ space,
    (CpuPlatform.get_device_total_memory h w0).1 = Ok space
    ∧ cpu_kvcache_space_bytes <$> cache_config (cfg w') = Some (Some space)
    ∧ space = default 4 (VLLM_CPU_KVCACHE_SPACE h) * GiB_bytes h.
Proof.
  intros Hrun.
  destruct (check_and_update_config_returns h w w' Hrun) as (Hok & Hc & _).
  apply check_and_update_config_Ok_iff in Hok as ((cc & Hcc & _) & _ & _).
  exists (Effect.device_total_memory h). split; [|split].
  - unfold CpuPlatform.get_device_total_memory, Effect.device_total_memory.
    destruct (VLLM_CPU_KVCACHE_SPACE h); [done|].
    unfold mbind, M_bind, logger_warning_once. by case_bool_decide.
  - by rewrite Hc, final_cfg_cache_config, Hcc.
  - unfold Effect.device_total_memory. by destruct (VLLM_CPU_KVCACHE_SPACE h).
Qed.

Lemma kvcache_space_after_return_witness :
  ∃ space,
    (CpuPlatform.get_device_total_memory darwin_arm_host (start plain_config ∅)).1
    = Ok space
    ∧ cpu_kvcache_space_bytes <$> cache_config
        (cfg (CpuPlatform.check_and_update_config darwin_arm_host
                (start plain_config ∅)).2)
      = Some (Some space)
    ∧ space = default 4 (VLLM_CPU_KVCACHE_SPACE darwin_arm_host)
              * GiB_bytes darwin_arm_host.
Proof.
  apply (kvcache_space_after_return darwin_arm_host (start plain_config ∅)).
  apply check_and_update_config_pair. vm_compute. reflexivity.
Defined.

(** X13. After a run that returns, a model configuration has cascade
    attention disabled, and its dtype is the one given, except that
    [torch.half] has become [torch.bfloat16] when the resolved cache dtype is
    not "auto": half precision never stays together with an 8-bit cache. *)
Theorem model_config_after_return (h : Host) (w w' : World) (m : ModelConfig) :
  CpuPlatform.check_and_update_config h w = (Ok (), w') →
  model_config (cfg w) = Some m →
  ∃ m' cc',
    model_config (cfg w') = Some m'
    ∧ cache_config (cfg w') = Some cc'
    ∧ disable_cascade_attn m' = true
    ∧ dtype m'
      = (if bool_decide (cache_dtype cc' ≠ "auto") && bool_decide (dtype m = half)
         then bfloat16 else dtype m)
    ∧ (cache_dtype cc' ≠ "auto" → dtype m' ≠ half).
Proof.
  intros Hrun Hm.
  destruct (check_and_update_config_returns h w w' Hrun) as (Hok & Hc & _).
  apply check_and_update_config_Ok_iff in Hok as ((cc & Hcc & _) & _ & _).
  do 2 eexists. rewrite Hc, final_cfg_model_config, final_cfg_cache_config.
  rewrite Hm, Hcc. simpl. split; [done|]. split; [done|].
  rewrite resolved_cache_config_dtype.
  destruct m as [dca dt mla]. unfold Effect.upgraded_dtype. simpl.
  destruct (bool_decide_reflect (cache_dtype (Effect.remapped_cache_dtype cc) ≠ "auto"))
    as [Hkv|Hkv]; simpl.
  - destruct (bool_decide_reflect (dt = half)) as [Hh|Hh]; simpl; by repeat split.
  - by repeat split.
Qed.

Lemma model_config_after_return_witness :
  ∃ m' cc',
    model_config
      (cfg (CpuPlatform.check_and_update_config linux_host
              (start ray_fp8_config ∅)).2) = Some m'
    ∧ cache_config
        (cfg (CpuPlatform.check_and_update_config linux_host
                (start ray_fp8_config ∅)).2) = Some cc'
    ∧ disable_cascade_attn m' = true
    ∧ dtype m'
      = (if bool_decide (cache_dtype cc' ≠ "auto")
            && bool_decide (dtype half_model = half)
         then bfloat16 else dtype half_model)
    ∧ (cache_dtype cc' ≠ "auto" → dtype m' ≠ half).
Proof.
  apply (model_config_after_return linux_host (start ray_fp8_config ∅));
    [|reflexivity].
  apply check_and_update_config_pair. vm_compute. reflexivity.
Defined.

(** X14. After a run that returns, the worker class is no longer "auto" (an
    explicit class is kept, "auto" becomes the CPU worker), and an executor
    backend that was requested for more than one process has become "mp"; no
    executor backend is invented when none was requested. *)
Theorem parallel_config_after_return (h : Host) (w w' : World) :
  CpuPlatform.check_and_update_config h w = (Ok (), w') →
  let p := parallel_config (cfg w) in
  let p' := parallel_config (cfg w') in
  worker_cls p'
  = (if bool_decide (worker_cls p = "auto")
     then "vllm.v1.worker.cpu_worker.CPUWorker" else worker_cls p)
  ∧ worker_cls p' ≠ "auto"
  ∧ distributed_executor_backend p'
    = match distributed_executor_backend p with
      | Some executor =>
          if bool_decide (world_size p > 1) then Some "mp" else Some executor
      | None => None
      end
  ∧ (world_size p' > 1 →
     distributed_executor_backend p' = None
     ∨ distributed_executor_backend p' = Some "mp").
Proof.
  intros Hrun p p'. subst p p'.
  destruct (check_and_update_config_returns h w w' Hrun) as (_ & -> & _).
  rewrite final_cfg_parallel_config.
  destruct (parallel_config (cfg w)) as [ws tp ex wc].
  unfold Effect.resolved_parallel_config, Effect.falls_back_to_mp. simpl.
  split; [done|]. split; [by case_bool_decide|].
  destruct ex as [ex|]; [|by split; [|left]].
  destruct (bool_decide_reflect (ws > 1)) as [Hws|Hws]; simpl.
  - destruct (bool_decide_reflect (ex ≠ "mp")) as [Hex|Hex]; simpl.
    + split; [done|by right].
    + destruct (decide (ex = "mp")) as [->|]; [|done]. split; [done|by right].
  - split; [done|]. intros ?. lia.
Qed.

Lemma parallel_config_after_return_witness :
  let p := parallel_config (cfg (start ray_fp8_config ∅)) in
  let p' := parallel_config
              (cfg (CpuPlatform.check_and_update_config linux_host
                      (start ray_fp8_config ∅)).2) in
  worker_cls p'
  = (if bool_decide (worker_cls p = "auto")
     then "vllm.v1.worker.cpu_worker.CPUWorker" else worker_cls p)
  ∧ worker_cls p' ≠ "auto"
  ∧ distributed_executor_backend p'
    = match distributed_executor_backend p with
      | Some executor =>
          if bool_decide (world_size p > 1) then Some "mp" else Some executor
      | None => None
      end
  ∧ (world_size p' > 1 →
     distributed_executor_backend p' = None
     ∨ distributed_executor_backend p' = Some "mp").
Proof.
  apply (parallel_config_after_return linux_host (start ray_fp8_config ∅)).
  apply check_and_update_config_pair. vm_compute. reflexivity.
Defined.

(** X15. After a run that returns, the capture-size list is empty and the
    level is never PIECEWISE; with a LoRA configuration the level is
    NO_COMPILATION whatever it was; without one, a level other than PIECEWISE
    is kept together with the backend, the custom operators and the inductor
    options. *)
Theorem compilation_config_after_return (h : Host) (w w' : World) :
  CpuPlatform.check_and_update_config h w = (Ok (), w') →
  let k := compilation_config (cfg w) in
  let k' := compilation_config (cfg w') in
  cudagraph_capture_sizes k' = Some []
  ∧ level k' ≠ PIECEWISE
  ∧ (is_Some (lora_config (cfg w)) → level k' = NO_COMPILATION)
  ∧ (level k ≠ PIECEWISE →
     backend k' = backend k
     ∧ custom_ops k' = custom_ops k
     ∧ inductor_compile_config k' = inductor_compile_config k
     ∧ (lora_config (cfg w) = None → level k' = level k)).
Proof.
  intros Hrun k k'. subst k k'.
  destruct (check_and_update_config_returns h w w' Hrun) as (_ & -> & _).
  rewrite final_cfg_compilation_config.
  destruct (compilation_config (cfg w)) as [lv be ui co cg ic].
  unfold Effect.lowered_compilation_config. simpl.
  destruct (lora_config (cfg w)) as [l|]; simpl;
    destruct (bool_decide_reflect (lv = PIECEWISE)) as [Hlv|Hlv]; simpl;
    repeat split; try done; by intros [? ?].
Qed.

Lemma compilation_config_after_return_witness :
  let k := compilation_config (cfg (start ray_fp8_config ∅)) in
  let k' := compilation_config
              (cfg (CpuPlatform.check_and_update_config linux_host
                      (start ray_fp8_config ∅)).2) in
  cudagraph_capture_sizes k' = Some []
  ∧ level k' ≠ PIECEWISE
  ∧ (is_Some (lora_config (cfg (start ray_fp8_config ∅))) →
     level k' = NO_COMPILATION)
  ∧ (level k ≠ PIECEWISE →
     backend k' = backend k
     ∧ custom_ops k' = custom_ops k
     ∧ inductor_compile_config k' = inductor_compile_config k
     ∧ (lora_config (cfg (start ray_fp8_config ∅)) = None → level k' = level k)).
Proof.
  apply (compilation_config_after_return linux_host (start ray_fp8_config ∅)).
  apply check_and_update_config_pair. vm_compute. reflexivity.
Defined.

(** *** The environment a returning run leaves *)

Lemma final_environ_unfold h e c n :
  Effect.max_threads h = Some n →
  Effect.final_environ h e c
  = <["LOCAL_WORLD_SIZE" := pretty (tensor_parallel_size (parallel_config c))]>
      ((if Effect.iomp_preloaded e then
          λ env, <["KMP_REDUCTION_BARRIER_PATTERN" := "dist,dist"]>
                   (<["KMP_PLAIN_BARRIER_PATTERN" := "dist,dist"]>
                      (<["KMP_FORKJOIN_BARRIER_PATTERN" := "dist,dist"]>
                         (<["KMP_TPAUSE" := "0"]>
                            (<["KMP_BLOCKTIME" := "1"]> env))))
        else λ env, env)
         (<["TORCHINDUCTOR_COMPILE_THREADS" := "1"]>
            (<["OMP_NUM_THREADS" := pretty (torch_num_threads h)]>
               (<["NUMEXPR_MAX_THREADS" := py_str n]>
                  (<["VLLM_WORKER_MULTIPROC_METHOD" := "spawn"]> e))))).
Proof.
  intros Hn. unfold Effect.final_environ, Effect.set_environment.
  cbn [out_environ]. unfold Effect.environment_writes. rewrite Hn.
  destruct (Effect.iomp_preloaded e); reflexivity.
Qed.

(** X16. After a run that returns, the worker spawn method is "spawn", the
    inductor compile threads are "1", OMP_NUM_THREADS is torch's thread
    count, LOCAL_WORLD_SIZE is the tensor-parallel size, and
    NUMEXPR_MAX_THREADS is the number of CPUs in the affinity mask (on a
    Darwin system without one, [os.cpu_count()]). *)
Theorem environment_after_return (h : Host) (w w' : World) :
  CpuPlatform.check_and_update_config h w = (Ok (), w') →
  environ w' !! "VLLM_WORKER_MULTIPROC_METHOD" = Some "spawn"
  ∧ environ w' !! "TORCHINDUCTOR_COMPILE_THREADS" = Some "1"
  ∧ environ w' !! "OMP_NUM_THREADS" = Some (pretty (torch_num_threads h))
  ∧ environ w' !! "LOCAL_WORLD_SIZE"
    = Some (pretty (tensor_parallel_size (parallel_config (cfg w))))
  ∧ environ w' !! "NUMEXPR_MAX_THREADS"
    = Some (match sched_getaffinity h with
            | Some affinity => pretty (Z.of_nat (size affinity))
            | None => py_str (os_cpu_count h)
            end).
Proof.
  intros Hrun.
  destruct (check_and_update_config_returns h w w' Hrun) as (Hok & _ & ->).
  apply check_and_update_config_Ok_iff in Hok as (_ & _ & [n Hn]).
  rewrite (final_environ_unfold h _ _ n Hn).
  assert (py_str n = match sched_getaffinity h with
                     | Some affinity => pretty (Z.of_nat (size affinity))
                     | None => py_str (os_cpu_count h)
                     end) as <-.
  { unfold Effect.max_threads in Hn. destruct (sched_getaffinity h).
    - by injection Hn as <-.
    - case_bool_decide; [by injection Hn as <-|done]. }
  destruct (Effect.iomp_preloaded (environ w));
    repeat split;
    repeat (first [by apply lookup_insert_eq | rewrite lookup_insert_ne by done]).
Qed.

Lemma environment_after_return_witness :
  environ (CpuPlatform.check_and_update_config linux_host
             (start ray_fp8_config iomp_environ)).2
    !! "VLLM_WORKER_MULTIPROC_METHOD" = Some "spawn"
  ∧ environ (CpuPlatform.check_and_update_config linux_host
               (start ray_fp8_config iomp_environ)).2
      !! "TORCHINDUCTOR_COMPILE_THREADS" = Some "1"
  ∧ environ (CpuPlatform.check_and_update_config linux_host
               (start ray_fp8_config iomp_environ)).2
      !! "OMP_NUM_THREADS" = Some (pretty (torch_num_threads linux_host))
  ∧ environ (CpuPlatform.check_and_update_config linux_host
               (start ray_fp8_config iomp_environ)).2
      !! "LOCAL_WORLD_SIZE"
    = Some (pretty (tensor_parallel_size
                      (parallel_config (cfg (start ray_fp8_config iomp_environ)))))
  ∧ environ (CpuPlatform.check_and_update_config linux_host
               (start ray_fp8_config iomp_environ)).2
      !! "NUMEXPR_MAX_THREADS"
    = Some (match sched_getaffinity linux_host with
            | Some affinity => pretty (Z.of_nat (size affinity))
            | None => py_str (os_cpu_count linux_host)
            end).
Proof.
  apply (environment_after_return linux_host (start ray_fp8_config iomp_environ)).
  apply check_and_update_config_pair. vm_compute. reflexivity.
Defined.

(** X17. After a run that returns, the five Intel OpenMP variables are set
    (block time "1", pause "0", the three barrier patterns "dist,dist") when
    LD_PRELOAD mentions libiomp5.so, and are left as they were otherwise. *)
Theorem intel_openmp_tuning (h : Host) (w w' : World) :
  CpuPlatform.check_and_update_config h w = (Ok (), w') →
  if py_contains "libiomp5.so" (default "" (environ w !! "LD_PRELOAD"))
  then
    environ w' !! "KMP_BLOCKTIME" = Some "1"
    ∧ environ w' !! "KMP_TPAUSE" = Some "0"
    ∧ environ w' !! "KMP_FORKJOIN_BARRIER_PATTERN" = Some "dist,dist"
    ∧ environ w' !! "KMP_PLAIN_BARRIER_PATTERN" = Some "dist,dist"
    ∧ environ w' !! "KMP_REDUCTION_BARRIER_PATTERN" = Some "dist,dist"
  else
    environ w' !! "KMP_BLOCKTIME" = environ w !! "KMP_BLOCKTIME"
    ∧ environ w' !! "KMP_TPAUSE" = environ w !! "KMP_TPAUSE"
    ∧ environ w' !! "KMP_FORKJOIN_BARRIER_PATTERN"
      = environ w !! "KMP_FORKJOIN_BARRIER_PATTERN"
    ∧ environ w' !! "KMP_PLAIN_BARRIER_PATTERN"
      = environ w !! "KMP_PLAIN_BARRIER_PATTERN"
    ∧ environ w' !! "KMP_REDUCTION_BARRIER_PATTERN"
      = environ w !! "KMP_REDUCTION_BARRIER_PATTERN".
Proof.
  intros Hrun.
  destruct (check_and_update_config_returns h w w' Hrun) as (Hok & _ & ->).
  apply check_and_update_config_Ok_iff in Hok as (_ & _ & [n Hn]).
  rewrite (final_environ_unfold h _ _ n Hn). unfold Effect.iomp_preloaded.
  destruct (py_contains _ _);
    repeat split;
    repeat (first [by apply lookup_insert_eq | rewrite lookup_insert_ne by done]);
    done.
Qed.

Lemma intel_openmp_tuning_witness :
  if py_contains "libiomp5.so"
       (default "" (environ (start ray_fp8_config iomp_environ) !! "LD_PRELOAD"))
  then
    environ (CpuPlatform.check_and_update_config linux_host
               (start ray_fp8_config iomp_environ)).2
      !! "KMP_BLOCKTIME" = Some "1"
    ∧ environ (CpuPlatform.check_and_update_config linux_host
                 (start ray_fp8_config iomp_environ)).2
        !! "KMP_TPAUSE" = Some "0"
    ∧ environ (CpuPlatform.check_and_update_config linux_host
                 (start ray_fp8_config iomp_environ)).2
        !! "KMP_FORKJOIN_BARRIER_PATTERN" = Some "dist,dist"
    ∧ environ (CpuPlatform.check_and_update_config linux_host
                 (start ray_fp8_config iomp_environ)).2
        !! "KMP_PLAIN_BARRIER_PATTERN" = Some "dist,dist"
    ∧ environ (CpuPlatform.check_and_update_config linux_host
                 (start ray_fp8_config iomp_environ)).2
        !! "KMP_REDUCTION_BARRIER_PATTERN" = Some "dist,dist"
  else
    environ (CpuPlatform.check_and_update_config linux_host
               (start ray_fp8_config iomp_environ)).2
      !! "KMP_BLOCKTIME"
    = environ (start ray_fp8_config iomp_environ) !! "KMP_BLOCKTIME"
    ∧ environ (CpuPlatform.check_and_update_config linux_host
                 (start ray_fp8_config iomp_environ)).2
        !! "KMP_TPAUSE"
      = environ (start ray_fp8_config iomp_environ) !! "KMP_TPAUSE"
    ∧ environ (CpuPlatform.check_and_update_config linux_host
                 (start ray_fp8_config iomp_environ)).2
        !! "KMP_FORKJOIN_BARRIER_PATTERN"
      = environ (start ray_fp8_config iomp_environ)
          !! "KMP_FORKJOIN_BARRIER_PATTERN"
    ∧ environ (CpuPlatform.check_and_update_config linux_host
                 (start ray_fp8_config iomp_environ)).2
        !! "KMP_PLAIN_BARRIER_PATTERN"
      = environ (start ray_fp8_config iomp_environ)
          !! "KMP_PLAIN_BARRIER_PATTERN"
    ∧ environ (CpuPlatform.check_and_update_config linux_host
                 (start ray_fp8_config iomp_environ)).2
        !! "KMP_REDUCTION_BARRIER_PATTERN"
      = environ (start ray_fp8_config iomp_environ)
          !! "KMP_REDUCTION_BARRIER_PATTERN".
Proof.
  apply (intel_openmp_tuning linux_host (start ray_fp8_config iomp_environ)).
  apply check_and_update_config_pair. vm_compute. reflexivity.
Defined.

(** ** Further properties of topology discovery *)

(** The NUMA nodes of a list of CPUs, as discovery lists them. *)
Lemma sorted_nodes_elem_of (kept : list LogicalCPUInfo.t) (n : Z) :
  n ∈ merge_sort Z.le
        (elements (foldl (λ (s : gset Z) x, s ∪ {[LogicalCPUInfo.numa_node x]})
                     ∅ kept))
  ↔ ∃ x, x ∈ kept ∧ LogicalCPUInfo.numa_node x = n.
Proof.
  rewrite merge_sort_Permutation, elem_of_elements, numa_nodes_of_cpus.
  split; [intros [Hn|Hn]; [by apply elem_of_empty in Hn|done]|by right].
Qed.

Lemma sorted_nodes_NoDup (kept : list LogicalCPUInfo.t) :
  NoDup (merge_sort Z.le
           (elements (foldl (λ (s : gset Z) x, s ∪ {[LogicalCPUInfo.numa_node x]})
                        ∅ kept))).
Proof. rewrite merge_sort_Permutation. apply NoDup_elements. Qed.

(** What a result of discovery tells. *)
Lemma get_allowed_cpu_memory_node_list_inv h nodes kept :
  CpuPlatform.get_allowed_cpu_memory_node_list h = Ok (nodes, kept) →
  ∃ mask,
    platform_system h = "Linux"
    ∧ sched_getaffinity h = Some mask
    ∧ Forall has_fields (lscpu_cpus h)
    ∧ kept = filter (allowed mask) (records (lscpu_cpus h))
    ∧ nodes = merge_sort Z.le
                (elements (foldl (λ (s : gset Z) x,
                                    s ∪ {[LogicalCPUInfo.numa_node x]}) ∅ kept)).
Proof.
  intros Hrun.
  destruct (decide (platform_system h = "Linux")) as [Hl|Hl]; cycle 1.
  { unfold CpuPlatform.get_allowed_cpu_memory_node_list in Hrun.
    by rewrite bool_decide_eq_false_2 in Hrun. }
  destruct (decide (Forall has_fields (lscpu_cpus h))) as [Hf|Hf]; cycle 1.
  { by rewrite (get_allowed_cpu_memory_node_list_Raise h Hl Hf) in Hrun. }
  destruct (sched_getaffinity h) as [mask|] eqn:Hm.
  - rewrite (get_allowed_cpu_memory_node_list_Ok h mask Hl Hm Hf) in Hrun.
    injection Hrun as <- <-. by exists mask.
  - unfold CpuPlatform.get_allowed_cpu_memory_node_list in Hrun.
    rewrite Hl, Hm in Hrun. simpl in Hrun.
    by rewrite (filter_valid_attributes_records _ Hf) in Hrun.
Qed.

Lemma filter_allowed_idemp mask (l : list LogicalCPUInfo.t) :
  filter (allowed mask) (filter (allowed mask) l) = filter (allowed mask) l.
Proof.
  induction l as [|x l IH]; [done|]. rewrite filter_cons.
  destruct (decide (allowed mask x)) as [Hx|Hx]; [|done].
  rewrite filter_cons, decide_True by done. by f_equal.
Qed.

(** The fields of an [lscpu] object. *)
Lemma lscpu_object_lookup (cpu core node : JsonValue) :
  lscpu_object cpu core node !! "cpu" = Some cpu
  ∧ lscpu_object cpu core node !! "core" = Some core
  ∧ lscpu_object cpu core node !! "node" = Some node.
Proof.
  unfold lscpu_object. split; [|split].
  - by rewrite lookup_insert_eq.
  - rewrite lookup_insert_ne by done. by rewrite lookup_insert_eq.
  - rewrite !lookup_insert_ne by done. by rewrite lookup_insert_eq.
Qed.

(** The decoder reads a record back from the object that spells it out. *)
Lemma as_object_has_fields (x : LogicalCPUInfo.t) : has_fields (as_object x).
Proof.
  unfold as_object, lscpu_entry.
  destruct (lscpu_object_lookup (JInt (LogicalCPUInfo.id x))
              (JInt (LogicalCPUInfo.physical_core x))
              (JInt (LogicalCPUInfo.numa_node x))) as (Ha & Hb & Hc).
  repeat split; eexists; (split; [eassumption|done]).
Qed.

Lemma json_decoder_as_object (x : LogicalCPUInfo.t) :
  LogicalCPUInfo.json_decoder (as_object x) = inl x.
Proof.
  rewrite (json_decoder_record _ (as_object_has_fields x)).
  unfold LogicalCPUInfo.get, as_object, lscpu_entry.
  destruct (lscpu_object_lookup (JInt (LogicalCPUInfo.id x))
              (JInt (LogicalCPUInfo.physical_core x))
              (JInt (LogicalCPUInfo.numa_node x))) as (-> & -> & ->).
  by destruct x.
Qed.

Lemma records_as_object (l : list LogicalCPUInfo.t) :
  Forall has_fields (as_object <$> l) ∧ records (as_object <$> l) = l.
Proof.
  induction l as [|x l [IH1 IH2]]; [by split|]. rewrite fmap_cons. split.
  - constructor; [apply as_object_has_fields|done].
  - unfold records in *. cbn [omap list_omap].
    by rewrite json_decoder_as_object, IH2.
Qed.

(** X18. Discovery is idempotent: on a host whose [lscpu] listing spells out
    the CPUs a first discovery returned, discovery returns the same CPUs and
    the same NUMA nodes. *)
Theorem discovery_is_idempotent (h : Host) nodes kept :
  CpuPlatform.get_allowed_cpu_memory_node_list h = Ok (nodes, kept) →
  CpuPlatform.get_allowed_cpu_memory_node_list
    (with_lscpu (as_object <$> kept) h)
  = Ok (nodes, kept).
Proof.
  intros Hrun.
  destruct (get_allowed_cpu_memory_node_list_inv h nodes kept Hrun)
    as (mask & Hl & Hm & _ & Hk & Hn).
  destruct (records_as_object kept) as [Hf Hr].
  rewrite (get_allowed_cpu_memory_node_list_Ok
             (with_lscpu (as_object <$> kept) h) mask Hl Hm Hf).
  cbn [lscpu_cpus with_lscpu]. rewrite Hr.
  rewrite Hk at 1 2. rewrite filter_allowed_idemp, <- Hk. by rewrite Hn.
Qed.

Lemma discovery_is_idempotent_witness :
  CpuPlatform.get_allowed_cpu_memory_node_list
    (with_lscpu (as_object <$> [cpu_info 0 0 1; cpu_info 2 1 0]) linux_host)
  = Ok ([0; 1], [cpu_info 0 0 1; cpu_info 2 1 0]).
Proof.
  apply (discovery_is_idempotent linux_host). vm_compute. reflexivity.
Defined.

(** X19. Discovery returns no more NUMA nodes than CPUs, every returned CPU
    lies on a returned node, and the node list is empty exactly when the CPU
    list is. *)
Theorem nodes_and_cpus (h : Host) nodes kept :
  CpuPlatform.get_allowed_cpu_memory_node_list h = Ok (nodes, kept) →
  (length nodes ≤ length kept)%nat
  ∧ (∀ x, x ∈ kept → LogicalCPUInfo.numa_node x ∈ nodes)
  ∧ (nodes = [] ↔ kept = []).
Proof.
  intros Hrun.
  destruct (get_allowed_cpu_memory_node_list_inv h nodes kept Hrun)
    as (mask & _ & _ & _ & _ & Hn).
  assert (∀ n, n ∈ nodes ↔ ∃ x, x ∈ kept ∧ LogicalCPUInfo.numa_node x = n) as Hin.
  { intros n. rewrite Hn. apply sorted_nodes_elem_of. }
  assert (NoDup nodes) as Hnd by (rewrite Hn; apply sorted_nodes_NoDup).
  split; [|split].
  - rewrite <- (length_fmap LogicalCPUInfo.numa_node kept).
    apply submseteq_length, NoDup_submseteq; [done|].
    intros n Hx. apply Hin in Hx as (x & Hx & <-). by apply list_elem_of_fmap_2.
  - intros x Hx. apply Hin. by exists x.
  - split.
    + intros ->. destruct kept as [|x kept]; [done|].
      assert (LogicalCPUInfo.numa_node x ∈ []) as Hx
        by (apply Hin; exists x; split; [apply list_elem_of_here|done]).
      by apply elem_of_nil in Hx.
    + intros ->. destruct nodes as [|n nodes]; [done|].
      assert (n ∈ n :: nodes) as Hx by apply list_elem_of_here.
      apply Hin in Hx as (x & Hx & _). by apply elem_of_nil in Hx.
Qed.

Lemma nodes_and_cpus_witness :
  (length [0%Z; 1%Z] ≤ length [cpu_info 0 0 1; cpu_info 2 1 0])%nat
  ∧ (∀ x, x ∈ [cpu_info 0 0 1; cpu_info 2 1 0] →
          LogicalCPUInfo.numa_node x ∈ [0; 1])
  ∧ ([0; 1] = [] ↔ [cpu_info 0 0 1; cpu_info 2 1 0] = []).
Proof.
  apply (nodes_and_cpus linux_host). vm_compute. reflexivity.
Defined.

(** X20. A larger affinity mask never loses anything: when discovery returns
    for a mask, it returns for every larger mask too, the CPUs returned for
    the smaller mask are a sublist of those returned for the larger one, and
    every NUMA node returned for the smaller mask is returned for the larger
    one. *)
Theorem discovery_is_monotone (h : Host) (mask1 mask2 : gset Z) nodes1 kept1 :
  mask1 ⊆ mask2 →
  CpuPlatform.get_allowed_cpu_memory_node_list (with_affinity mask1 h)
  = Ok (nodes1, kept1) →
  ∃ nodes2 kept2,
    CpuPlatform.get_allowed_cpu_memory_node_list (with_affinity mask2 h)
    = Ok (nodes2, kept2)
    ∧ kept1 `sublist_of` kept2
    ∧ (∀ n, n ∈ nodes1 → n ∈ nodes2).
Proof.
  intros Hsub Hrun.
  destruct (get_allowed_cpu_memory_node_list_inv _ nodes1 kept1 Hrun)
    as (mask & Hl & Hm & Hf & Hk & Hn).
  cbn [with_affinity platform_system sched_getaffinity lscpu_cpus] in Hl, Hm, Hf, Hk.
  injection Hm as <-.
  do 2 eexists.
  split; [by apply (get_allowed_cpu_memory_node_list_Ok _ mask2)|].
  cbn [with_affinity lscpu_cpus].
  assert (kept1 `sublist_of` filter (allowed mask2) (records (lscpu_cpus h)))
    as Hkept.
  { rewrite Hk.
    rewrite <- (list_filter_filter_l (allowed mask1) (allowed mask2)).
    - apply sublist_filter.
    - intros x (? & ? & ? & ?). repeat split; try done. by apply Hsub. }
  split; [done|]. intros n. rewrite Hn, !sorted_nodes_elem_of.
  intros (x & Hx & <-). exists x. split; [|done].
  eapply elem_of_sublist; [apply Hx|apply Hkept].
Qed.

Lemma discovery_is_monotone_witness :
  ∃ nodes2 kept2,
    CpuPlatform.get_allowed_cpu_memory_node_list
      (with_affinity {[0; 2]} linux_host)
    = Ok (nodes2, kept2)
    ∧ [cpu_info 0 0 1] `sublist_of` kept2
    ∧ (∀ n, n ∈ [1] → n ∈ nodes2).
Proof.
  apply (discovery_is_monotone linux_host {[0]} {[0; 2]} [1] [cpu_info 0 0 1]).
  - apply union_subseteq_l.
  - vm_compute. reflexivity.
Defined.

(** X21. When [lscpu] lists every CPU id once, discovery returns at most as
    many CPUs as [get_max_threads] counts. *)
Theorem discovery_within_max_threads (h : Host) (w : World) nodes kept :
  CpuPlatform.get_allowed_cpu_memory_node_list h = Ok (nodes, kept) →
  NoDup (LogicalCPUInfo.id <$> records (lscpu_cpus h)) →
  ∃ n, (get_max_threads h w).1 = Ok (Some n) ∧ Z.of_nat (length kept) ≤ n.
Proof.
  intros Hrun Hnd.
  destruct (get_allowed_cpu_memory_node_list_inv h nodes kept Hrun)
    as (mask & _ & Hm & _ & Hk & _).
  exists (Z.of_nat (size mask)). unfold get_max_threads. rewrite Hm.
  split; [done|]. apply inj_le.
  assert (NoDup (LogicalCPUInfo.id <$> kept)) as Hids.
  { eapply sublist_NoDup; [exact Hnd|]. rewrite Hk.
    apply fmap_sublist, sublist_filter. }
  rewrite <- (length_fmap LogicalCPUInfo.id kept).
  rewrite <- (size_list_to_set (C:=gset Z)) by done.
  apply subseteq_size. intros i Hi. apply elem_of_list_to_set in Hi.
  apply list_elem_of_fmap in Hi as (x & -> & Hx). rewrite Hk in Hx.
  by apply list_elem_of_filter in Hx as ((_ & _ & _ & ?) & _).
Qed.

Lemma discovery_within_max_threads_witness :
  ∃ n, (get_max_threads linux_host (start plain_config ∅)).1 = Ok (Some n)
       ∧ Z.of_nat (length [cpu_info 0 0 1; cpu_info 2 1 0]) ≤ n.
Proof.
  apply (discovery_within_max_threads linux_host (start plain_config ∅) [0; 1]).
  - vm_compute. reflexivity.
  - apply (bool_decide_unpack _). vm_compute. exact I.
Defined.

(** ** The [lscpu] decoder *)

(** X22. [json_decoder] builds a record exactly when the object has the three
    fields "cpu", "core" and "node" and none of them is [null]; the record
    holds what [_int] makes of the three values. Any other object is handed
    back unchanged. *)
Theorem json_decoder_keys (obj_dict : gmap string JsonValue) :
  (∀ x, LogicalCPUInfo.json_decoder obj_dict = inl x
        ↔ ∃ cpu core node,
            obj_dict !! "cpu" = Some cpu ∧ obj_dict !! "core" = Some core
            ∧ obj_dict !! "node" = Some node
            ∧ cpu ≠ JNull ∧ core ≠ JNull ∧ node ≠ JNull
            ∧ x = {| LogicalCPUInfo.id := LogicalCPUInfo._int cpu;
                     LogicalCPUInfo.physical_core := LogicalCPUInfo._int core;
                     LogicalCPUInfo.numa_node := LogicalCPUInfo._int node |})
  ∧ (∀ d, LogicalCPUInfo.json_decoder obj_dict = inr d → d = obj_dict).
Proof.
  split.
  - intros x. split.
    + intros Hx. pose proof (json_decoder_inl _ _ Hx) as Hf.
      rewrite (json_decoder_record _ Hf) in Hx. injection Hx as <-.
      destruct Hf as ((cpu & Ha & ?) & (core & Hb & ?) & (node & Hc & ?)).
      exists cpu, core, node. unfold LogicalCPUInfo.get.
      by rewrite Ha, Hb, Hc.
    + intros (cpu & core & node & Ha & Hb & Hc & ? & ? & ? & ->).
      rewrite json_decoder_record.
      * unfold LogicalCPUInfo.get. by rewrite Ha, Hb, Hc.
      * repeat split; eexists; (split; [eassumption|done]).
  - intros d. destruct (decide (has_fields obj_dict)) as [Hf|Hf].
    + by rewrite (json_decoder_record _ Hf).
    + rewrite (json_decoder_dict _ Hf). by intros [= <-].
Qed.

(** X23. An [lscpu] object with the three fields, none of them [null], is
    decoded to a record, and the record survives the validity filter of
    discovery exactly when [int] parses each of the three fields to an
    integer other than -1: an unparsable field makes the entry disappear,
    and so does a field that reads -1. *)
Theorem decoded_entry_is_kept_iff (obj_dict : gmap string JsonValue)
    (cpu core node : JsonValue) :
  obj_dict !! "cpu" = Some cpu →
  obj_dict !! "core" = Some core →
  obj_dict !! "node" = Some node →
  cpu ≠ JNull → core ≠ JNull → node ≠ JNull →
  ∃ x, LogicalCPUInfo.json_decoder obj_dict = inl x
       ∧ (CpuPlatform.has_valid_attributes x = true
          ↔ ∃ i j k, LogicalCPUInfo.py_int cpu = Some i
                     ∧ LogicalCPUInfo.py_int core = Some j
                     ∧ LogicalCPUInfo.py_int node = Some k
                     ∧ i ≠ -1 ∧ j ≠ -1 ∧ k ≠ -1).
Proof.
  intros Ha Hb Hc ? ? ?. rewrite json_decoder_record; cycle 1.
  { repeat split; eexists; (split; [eassumption|done]). }
  eexists. split; [done|]. rewrite has_valid_attributes_iff.
  unfold LogicalCPUInfo.get. rewrite Ha, Hb, Hc.
  cbn [LogicalCPUInfo.id LogicalCPUInfo.physical_core LogicalCPUInfo.numa_node].
  unfold LogicalCPUInfo._int.
  destruct (LogicalCPUInfo.py_int cpu) as [i|],
    (LogicalCPUInfo.py_int core) as [j|],
    (LogicalCPUInfo.py_int node) as [k|];
    split; try (by intros (? & ? & ?));
    try (by intros (? & ? & ? & ? & ? & ? & ?)).
  - intros (? & ? & ?). by exists i, j, k.
  - by intros (? & ? & ? & [= <-] & [= <-] & [= <-] & ? & ? & ?).
Qed.

Lemma decoded_entry_is_kept_iff_witness :
  ∃ x, LogicalCPUInfo.json_decoder (lscpu_object (JInt 3) (JInt 1) JOther)
       = inl x
       ∧ (CpuPlatform.has_valid_attributes x = true
          ↔ ∃ i j k, LogicalCPUInfo.py_int (JInt 3) = Some i
                     ∧ LogicalCPUInfo.py_int (JInt 1) = Some j
                     ∧ LogicalCPUInfo.py_int JOther = Some k
                     ∧ i ≠ -1 ∧ j ≠ -1 ∧ k ≠ -1).
Proof.
  apply (decoded_entry_is_kept_iff (lscpu_object (JInt 3) (JInt 1) JOther)
           (JInt 3) (JInt 1) JOther); done.
Defined.

(** ** Further properties of the capability tables *)

(** X24. On every host [supported_dtypes] lists float32 last, lists bfloat16
    or float16 before it, and lists nothing twice and nothing else. *)
Theorem supported_dtypes_shape (h : Host) :
  last (CpuPlatform.supported_dtypes h) = Some float32
  ∧ (bfloat16 ∈ CpuPlatform.supported_dtypes h
     ∨ float16 ∈ CpuPlatform.supported_dtypes h)
  ∧ NoDup (CpuPlatform.supported_dtypes h)
  ∧ (∀ d, d ∈ CpuPlatform.supported_dtypes h →
          d = bfloat16 ∨ d = float16 ∨ d = float32).
Proof.
  assert (∀ l : list torch_dtype,
            l = [bfloat16; float32] ∨ l = [float16; float32]
            ∨ l = [bfloat16; float16; float32] →
            last l = Some float32
            ∧ (bfloat16 ∈ l ∨ float16 ∈ l)
            ∧ NoDup l
            ∧ (∀ d, d ∈ l → d = bfloat16 ∨ d = float16 ∨ d = float32)) as Hshape.
  { intros l [-> | [-> | ->]]; (split; [done|]); split.
    - left. apply list_elem_of_here.
    - split; [apply (bool_decide_unpack _); vm_compute; exact I|].
      intros d Hd. repeat (apply elem_of_cons in Hd as [-> | Hd]; [by auto|]).
      by apply elem_of_nil in Hd.
    - right. apply list_elem_of_here.
    - split; [apply (bool_decide_unpack _); vm_compute; exact I|].
      intros d Hd. repeat (apply elem_of_cons in Hd as [-> | Hd]; [by auto|]).
      by apply elem_of_nil in Hd.
    - left. apply list_elem_of_here.
    - split; [apply (bool_decide_unpack _); vm_compute; exact I|].
      intros d Hd. repeat (apply elem_of_cons in Hd as [-> | Hd]; [by auto|]).
      by apply elem_of_nil in Hd. }
  apply Hshape. unfold CpuPlatform.supported_dtypes.
  destruct (bool_decide _); [by left|]. destruct (_ && _); by auto.
Qed.

(** X25. [get_attn_backend_cls] touches nothing but the log: configuration,
    environment and write trace are as before, every record it adds is at
    level INFO, and "Using Torch SDPA backend." is logged exactly when
    [use_mla] is unset (also when the call then fails for lack of V1). *)
Theorem get_attn_backend_cls_only_logs (selected_backend : option _Backend)
    (head_size : Z) (dt : torch_dtype) (kv_cache_dtype : option string)
    (bs : Z) (use_v1 use_mla : bool) (w : World) :
  let w' := (CpuPlatform.get_attn_backend_cls selected_backend head_size dt
               kv_cache_dtype bs use_v1 use_mla w).2 in
  cfg w' = cfg w
  ∧ environ w' = environ w
  ∧ trace w' = trace w
  ∧ ∃ records,
      log w' = log w ++ records
      ∧ Forall (λ r, log_level r = INFO) records
      ∧ ({| log_level := INFO; log_message := "Using Torch SDPA backend." |}
         ∈ records ↔ use_mla = false).
Proof.
  unfold CpuPlatform.get_attn_backend_cls.
  destruct selected_backend as [[|name]|], use_mla, use_v1;
    repeat (unfold mbind, M_bind, mret, M_ret, logger, raise; simpl);
    repeat split; try done.
  all: first
    [ exists []; rewrite app_nil_r; split; [done|]; split; [constructor|];
      by rewrite elem_of_nil
    | eexists [_]; split; [done|]; split; [by repeat constructor|];
      first [ split; [done|]; intros _; apply list_elem_of_here
            | rewrite list_elem_of_singleton; by split ]
    | eexists [_; _]; rewrite <- app_assoc; split; [done|]; split;
      [by repeat constructor|];
      split; [done|]; intros _; apply list_elem_of_further, list_elem_of_here ].
Qed.

(** ** When discovery returns *)

(** X26. An [lscpu] object that lacks one of the three fields, or has [null]
    there, is not skipped: on Linux it makes discovery raise
    [AttributeError], whatever the other objects and the affinity mask
    are. *)
Theorem malformed_entry_is_fatal (h : Host) (obj_dict : gmap string JsonValue) :
  platform_system h = "Linux" →
  obj_dict ∈ lscpu_cpus h →
  ¬ has_fields obj_dict →
  CpuPlatform.get_allowed_cpu_memory_node_list h = Raise (AttributeError "id").
Proof.
  intros Hl Hin Hno. apply get_allowed_cpu_memory_node_list_Raise; [done|].
  rewrite Forall_forall. intros Hall. by apply Hno, Hall.
Qed.

Lemma malformed_entry_is_fatal_witness :
  CpuPlatform.get_allowed_cpu_memory_node_list missing_node_host
  = Raise (AttributeError "id").
Proof.
  apply (malformed_entry_is_fatal missing_node_host
           (lscpu_object (JInt 1) (JInt 0) JNull)).
  - reflexivity.
  - apply list_elem_of_further, list_elem_of_here.
  - apply (bool_decide_unpack _). vm_compute. exact I.
Defined.

